(** * ethpm URI validation and web3 validation middleware

    A shallow embedding of [ethpm/validation/uri.py] and
    [web3/middleware/validation.py], followed by the properties of the
    validators.

    Python values are modelled as follows.
    - [str] is a sequence of Unicode code points ([list N]); literals are
      written [lit "..."].
    - [bytes] is [list byte].
    - A call either returns a value or raises; this is the [result] type.
      The exception classes that occur are [EthPMValidationError] (ethpm),
      [ValidationError] (web3) and the built-in ones raised by the
      interpreter and by third-party libraries ([builtin_exn]).
    - Library functions that are not part of the two files (urllib,
      eth_utils, hexbytes, the other ethpm modules) are collected in the
      [Externals] interface; the validators are written against it.  A
      concrete instance, [model], is given for evaluation on concrete
      inputs. *)

From Stdlib Require Import ZArith NArith List Ascii String Strings.Byte Bool Lia.
From Stdlib Require DecimalString.
From stdpp Require Import base option list gmap.

Local Open Scope N_scope.

(** ** Python data *)

Module Py.

(** A Python [str]: a sequence of code points. *)
Definition char := N.
Definition str := list char.
Definition bytes := list byte.

Definition chr (a : ascii) : char := N_of_ascii a.

Definition lit (s : string) : str :=
  map chr (list_ascii_of_string s).

(** A [bytes] literal. *)
Definition blit (s : string) : bytes := list_byte_of_string s.

(** Exceptions raised by the interpreter or by third-party libraries. *)
Inductive builtin_exn :=
| ValueError
| TypeError
| UnicodeDecodeError
| UnicodeEncodeError.

Inductive exn :=
| EthPMValidationError (msg : str)
| ValidationError (msg : str)
| Builtin (e : builtin_exn).

Inductive result (A : Type) :=
| Return (a : A)
| Raise (e : exn).
Arguments Return {A} a.
Arguments Raise {A} e.

Definition bind {A B} (m : result A) (k : A -> result B) : result B :=
  match m with
  | Return a => k a
  | Raise e => Raise e
  end.

(** Lifting of a library call that can only raise built-in exceptions. *)
Definition call {A} (r : builtin_exn + A) : result A :=
  match r with
  | inr a => Return a
  | inl e => Raise (Builtin e)
  end.

(** [s.split(sep)] for a one-character separator: the pieces between the
    occurrences of [sep], always at least one piece. *)
Fixpoint split (sep : char) (s : str) : list str :=
  match s with
  | [] => [[]]
  | c :: r =>
      if N.eqb c sep then [] :: split sep r
      else match split sep r with
           | [] => [[c]]
           | p :: ps => (c :: p) :: ps
           end
  end.

(** [l[-1]] on a list of strings; [split] never returns the empty list,
    where Python would raise [IndexError]. *)
Definition last_piece (l : list str) : str := List.last l [].

(** [s.lstrip(c)], [s.rstrip(c)] and [s.strip(c)] for a one-character
    set. *)
Fixpoint lstrip (c : char) (s : str) : str :=
  match s with
  | [] => []
  | x :: r => if N.eqb x c then lstrip c r else s
  end.

Definition rstrip (c : char) (s : str) : str := rev (lstrip c (rev s)).

Definition strip (c : char) (s : str) : str := rstrip c (lstrip c s).

(** [str(n)] for a non-negative integer. *)
Definition decimal (n : N) : str :=
  lit (DecimalString.NilZero.string_of_uint (N.to_uint n)).

(** [sep.join(l)]. *)
Fixpoint join (sep : str) (l : list str) : str :=
  match l with
  | [] => []
  | [x] => x
  | x :: r => x ++ sep ++ join sep r
  end.

(** [x in s] on strings. *)
Fixpoint startswith (p s : str) : bool :=
  match p, s with
  | [], _ => true
  | _ :: _, [] => false
  | a :: p', b :: s' => N.eqb a b && startswith p' s'
  end.

Fixpoint containsb (s x : str) : bool :=
  startswith x s ||
  match s with
  | [] => false
  | _ :: r => containsb r x
  end.

Definition contains (s x : str) : Prop :=
  exists pre post, s = pre ++ x ++ post.

(** Truthiness of a string: [if s:] holds for the non-empty ones. *)
Definition truthy (s : str) : bool :=
  match s with [] => false | _ => true end.

Definition str_eqb (a b : str) : bool := bool_decide (a = b).

End Py.
Import Py.

#[global] Instance result_ret : MRet result := fun _ a => Return a.
#[global] Instance result_bind : MBind result := fun _ _ k m => bind m k.

(** ** UTF-8, as used by [bytes.decode("utf-8")] and [str.encode("utf-8")] *)

Module Utf8.

Definition byte_of_N (n : N) : byte :=
  match Byte.of_N n with
  | Some b => b
  | None => x00
  end.

Definition in_range (lo hi x : N) : bool := (lo <=? x) && (x <=? hi).

(** A continuation byte, [10xxxxxx]. *)
Definition cont (x : N) : bool := in_range 0x80 0xBF x.

(** Strict decoding of a byte sequence given as numbers: overlong forms,
    surrogates, values above U+10FFFF and truncated sequences are
    rejected. *)
Fixpoint decode_N (l : list N) : option str :=
  match l with
  | [] => Some []
  | b0 :: r0 =>
      if b0 <? 0x80 then cons b0 <$> decode_N r0
      else if in_range 0xC2 0xDF b0 then
        match r0 with
        | b1 :: r1 =>
            if cont b1
            then cons ((b0 mod 32) * 64 + b1 mod 64) <$> decode_N r1
            else None
        | _ => None
        end
      else if in_range 0xE0 0xEF b0 then
        match r0 with
        | b1 :: b2 :: r2 =>
            if in_range (if b0 =? 0xE0 then 0xA0 else 0x80)
                        (if b0 =? 0xED then 0x9F else 0xBF) b1
               && cont b2
            then cons ((b0 mod 16) * 4096 + (b1 mod 64) * 64 + b2 mod 64)
                   <$> decode_N r2
            else None
        | _ => None
        end
      else if in_range 0xF0 0xF4 b0 then
        match r0 with
        | b1 :: b2 :: b3 :: r3 =>
            if in_range (if b0 =? 0xF0 then 0x90 else 0x80)
                        (if b0 =? 0xF4 then 0x8F else 0xBF) b1
               && cont b2 && cont b3
            then cons ((b0 mod 8) * 262144 + (b1 mod 64) * 4096
                       + (b2 mod 64) * 64 + b3 mod 64)
                   <$> decode_N r3
            else None
        | _ => None
        end
      else None
  end.

Definition decode (b : bytes) : option str := decode_N (map Byte.to_N b).

(** A code point that [str.encode("utf-8")] accepts: a Unicode scalar
    value. *)
Definition scalar (c : char) : bool :=
  (c <? 0xD800) || in_range 0xE000 0x10FFFF c.

Definition encode_char (c : char) : list N :=
  if c <? 0x80 then [c]
  else if c <? 0x800 then [0xC0 + c / 64; 0x80 + c mod 64]
  else if c <? 0x10000 then
    [0xE0 + c / 4096; 0x80 + (c / 64) mod 64; 0x80 + c mod 64]
  else
    [0xF0 + c / 262144; 0x80 + (c / 4096) mod 64;
     0x80 + (c / 64) mod 64; 0x80 + c mod 64].

Fixpoint encode (s : str) : option bytes :=
  match s with
  | [] => Some []
  | c :: r =>
      if scalar c
      then app (map byte_of_N (encode_char c)) <$> encode r
      else None
  end.

End Utf8.

(** ** SHA-1, as computed by [hashlib.sha1] *)

Module Sha1.

Definition w32 (x : N) : N := x mod 2 ^ 32.

Definition add32 (x y : N) : N := w32 (x + y).

Definition rotl (n x : N) : N :=
  w32 (N.lor (N.shiftl x n) (N.shiftr x (32 - n))).

Definition not32 (x : N) : N := 2 ^ 32 - 1 - x.

(** Big-endian bytes of a number, [n] of them. *)
Fixpoint be_bytes (n : nat) (x : N) : list N :=
  match n with
  | O => []
  | S m => be_bytes m (x / 256) ++ [x mod 256]
  end.

(** Message padding: a [1] bit, zeros up to 56 mod 64 bytes, then the
    length in bits on 64 bits. *)
Definition pad (msg : list N) : list N :=
  let len := N.of_nat (length msg) in
  let zeros := N.to_nat ((119 - len mod 64) mod 64) in
  msg ++ [0x80] ++ repeat 0 zeros ++ be_bytes 8 (8 * len).

Fixpoint words (n : nat) (l : list N) : list N :=
  match n, l with
  | S m, a :: b :: c :: d :: r =>
      (((a * 256 + b) * 256 + c) * 256 + d) :: words m r
  | _, _ => []
  end.

(** The message schedule, most recent word first: [rw] holds
    [w(t-1), w(t-2), ...]. *)
Fixpoint extend (n : nat) (rw : list N) : list N :=
  match n with
  | O => rw
  | S m =>
      let x := N.lxor (N.lxor (nth 2 rw 0) (nth 7 rw 0))
                      (N.lxor (nth 13 rw 0) (nth 15 rw 0)) in
      extend m (rotl 1 x :: rw)
  end.

Definition schedule (block : list N) : list N :=
  rev (extend 64 (rev (words 16 block))).

Definition f (t : nat) (b c d : N) : N :=
  if (t <? 20)%nat then N.lor (N.land b c) (N.land (not32 b) d)
  else if (t <? 40)%nat then N.lxor (N.lxor b c) d
  else if (t <? 60)%nat then
    N.lor (N.lor (N.land b c) (N.land b d)) (N.land c d)
  else N.lxor (N.lxor b c) d.

Definition k (t : nat) : N :=
  if (t <? 20)%nat then 0x5A827999
  else if (t <? 40)%nat then 0x6ED9EBA1
  else if (t <? 60)%nat then 0x8F1BBCDC
  else 0xCA62C1D6.

Definition state : Type := N * N * N * N * N.

Fixpoint rounds (t : nat) (w : list N) (s : state) : state :=
  match w with
  | [] => s
  | wt :: w' =>
      let '(a, b, c, d, e) := s in
      let tmp :=
        add32 (add32 (add32 (add32 (rotl 5 a) (f t b c d)) e) (k t)) wt in
      rounds (S t) w' (tmp, a, rotl 30 b, c, d)
  end.

Definition compress (s : state) (block : list N) : state :=
  let '(h0, h1, h2, h3, h4) := s in
  let '(a, b, c, d, e) := rounds 0 (schedule block) s in
  (add32 h0 a, add32 h1 b, add32 h2 c, add32 h3 d, add32 h4 e).

Fixpoint blocks (n : nat) (l : list N) (s : state) : state :=
  match n with
  | O => s
  | S m =>
      match l with
      | [] => s
      | _ => blocks m (skipn 64 l) (compress s (firstn 64 l))
      end
  end.

Definition init : state :=
  (0x67452301, 0xEFCDAB89, 0x98BADCFE, 0x10325476, 0xC3D2E1F0).

Definition sha1 (msg : bytes) : state :=
  let p := pad (map Byte.to_N msg) in
  blocks (length p) p init.

Definition hex_digit (x : N) : char :=
  if x <? 10 then 48 + x else 87 + x.

Fixpoint hex_of (n : nat) (x : N) : str :=
  match n with
  | O => []
  | S m => hex_of m (x / 16) ++ [hex_digit (x mod 16)]
  end.

(** [hash_object.hexdigest()]: forty lower-case hexadecimal digits. *)
Definition hexdigest (s : state) : str :=
  let '(h0, h1, h2, h3, h4) := s in
  hex_of 8 h0 ++ hex_of 8 h1 ++ hex_of 8 h2 ++ hex_of 8 h3 ++ hex_of 8 h4.

End Sha1.

(** ** Library functions the two files call *)

(** [urllib.parse.ParseResult]. *)
Record ParseResult := {
  scheme : str;
  netloc : str;
  path : str;
  params : str;
  query : str;
  fragment : str
}.

(** Values of arbitrary Python type, as far as the middleware tells them
    apart. *)
#[warnings="-register-all"]
Inductive pyval :=
| PyNone
| PyBool (b : bool)
| PyInt (z : Z)
| PyStr (s : str)
| PyBytes (b : bytes)
| PyList (l : list pyval).

(** The collaborators of the validators.  A library function that can
    raise returns [builtin_exn + _]; the predicates are total. *)
Class Externals := {
  (** the [Web3] handle *)
  Web3 : Type;
  (** [urllib.parse.urlparse(url)] *)
  urlparse : str -> builtin_exn + ParseResult;
  (** [urllib.parse.parse_qs(qs, keep_blank_values=True)] *)
  parse_qs : str -> gmap str (list str);
  (** [eth_utils.is_checksum_address] *)
  is_checksum_address : str -> bool;
  (** [eth_utils.to_int(text=s)], that is [int(s)] *)
  to_int : str -> builtin_exn + Z;
  (** [repr(s)] of a string, as used when a list is formatted *)
  repr : str -> str;
  (** [hexbytes.HexBytes(val)], as a byte string *)
  HexBytes : pyval -> builtin_exn + bytes;
  (** [ethpm._utils.chains.is_supported_chain_id] *)
  is_supported_chain_id : Z -> bool;
  (** [ethpm._utils.ipfs.is_ipfs_uri] *)
  is_ipfs_uri : str -> bool;
  (** [ethpm._utils.registry.is_ens_domain] *)
  is_ens_domain : str -> bool;
  (** [ethpm.constants.REGISTRY_URI_SCHEME] *)
  REGISTRY_URI_SCHEME : str;
  (** [ethpm.validation.package.validate_package_name] *)
  validate_package_name : str -> result unit;
  (** [ethpm.uri.check_if_chain_matches_chain_uri] *)
  check_if_chain_matches_chain_uri : Web3 -> str -> bool
}.

(** [eth_utils.to_text(primitive)] on [bytes]: [primitive.decode("utf-8")]. *)
Definition to_text (primitive : bytes) : result str :=
  match Utf8.decode primitive with
  | Some s => Return s
  | None => Raise (Builtin UnicodeDecodeError)
  end.

(** [eth_utils.to_bytes(text=s)]: [s.encode("utf-8")]. *)
Definition to_bytes (text : str) : result bytes :=
  match Utf8.encode text with
  | Some b => Return b
  | None => Raise (Builtin UnicodeEncodeError)
  end.

(** [str(l)] of a list of strings. *)
Definition repr_list `{Externals} (l : list str) : str :=
  lit "[" ++ join (lit ", ") (map repr l) ++ lit "]".

(** ** ethpm/validation/uri.py *)

Module Msg.

Definition invalid_ipfs_uri (uri : str) : str :=
  lit "URI: " ++ uri ++ lit " is not a valid IPFS URI.".

Definition missing_package_name : str :=
  lit "Registry URIs cannot provide a version without a package name.".

Definition malformed_authority (auth : str) : str :=
  auth ++ lit " is not a valid registry URI authority. "
       ++ lit "Please try again with a valid registry URI.".

Definition invalid_identity (address : str) : str :=
  address ++ lit " is not a valid registry address. "
          ++ lit "Please try again with a valid registry URI.".

Definition unsupported_chain_id (chain_id : str) : str :=
  lit "Chain ID: " ++ chain_id
    ++ lit " is not supported. Supported chain ids include: "
    ++ lit "1 (mainnet), 3 (ropsten), 4 (rinkeby), 5 (goerli) and 42 (kovan). "
    ++ lit "Please try again with a valid registry URI.".

Definition invalid_scheme (scheme : str) : str :=
  scheme ++ lit " is not a valid registry URI scheme.".

Definition missing_version_key (query : str) : str :=
  query ++ lit " is not a correctly formatted version param.".

Definition no_matching_uri : str :=
  lit "Package has no matching URIs on chain.".

Definition too_many_matching `{Externals} (matching_uris : list str) : str :=
  lit "Package has too many ("
    ++ decimal (N.of_nat (length matching_uris))
    ++ lit ") matching URIs: " ++ repr_list matching_uris ++ lit ".".

Definition hash_mismatch (blob_uri blob_hash : str) : str :=
  lit "Hash of contents fetched from " ++ blob_uri
    ++ lit " do not match its hash: " ++ blob_hash ++ lit ".".

End Msg.

Section Uri.

Context `{Externals}.

Definition validate_ipfs_uri (uri : str) : result unit :=
  if negb (is_ipfs_uri uri)
  then Raise (EthPMValidationError (Msg.invalid_ipfs_uri uri))
  else Return tt.

Definition validate_registry_uri_authority (auth : str) : result unit :=
  match split (chr ":") auth with
  | [address; chain_id] =>
      if negb (is_ens_domain address) && negb (is_checksum_address address)
      then Raise (EthPMValidationError (Msg.invalid_identity address))
      else
        n ← call (to_int chain_id);
        if negb (is_supported_chain_id n)
        then Raise (EthPMValidationError (Msg.unsupported_chain_id chain_id))
        else Return tt
  | _ => Raise (EthPMValidationError (Msg.malformed_authority auth))
  end.

Definition validate_registry_uri_scheme (scheme : str) : result unit :=
  if negb (str_eqb scheme REGISTRY_URI_SCHEME)
  then Raise (EthPMValidationError (Msg.invalid_scheme scheme))
  else Return tt.

Definition validate_registry_uri_version (query : str) : result unit :=
  let query_dict := parse_qs query in
  match query_dict !! lit "version" with
  | None => Raise (EthPMValidationError (Msg.missing_version_key query))
  | Some _ => Return tt
  end.

Definition validate_registry_uri (uri : str) : result unit :=
  parsed ← call (urlparse uri);
  let scheme := scheme parsed in
  let authority := netloc parsed in
  let pkg_path := path parsed in
  let version := query parsed in
  validate_registry_uri_scheme scheme;;
  validate_registry_uri_authority authority;;
  let pkg_name := strip (chr "/") pkg_path in
  (if truthy pkg_name then validate_package_name pkg_name else Return tt);;
  (if negb (truthy pkg_name) && truthy version
   then Raise (EthPMValidationError Msg.missing_package_name)
   else Return tt);;
  if truthy version then validate_registry_uri_version version
  else Return tt.

Definition validate_single_matching_uri
    (all_blockchain_uris : list str) (w3 : Web3) : result str :=
  let matching_uris :=
    List.filter (check_if_chain_matches_chain_uri w3) all_blockchain_uris in
  match matching_uris with
  | [] => Raise (EthPMValidationError Msg.no_matching_uri)
  | first :: _ =>
      if negb (Nat.eqb (length matching_uris) 1)
      then Raise (EthPMValidationError (Msg.too_many_matching matching_uris))
      else Return first
  end.

Definition validate_blob_uri_contents
    (contents : bytes) (blob_uri : str) : result unit :=
  parsed ← call (urlparse blob_uri);
  let blob_path := path parsed in
  let blob_hash := last_piece (split (chr "/") blob_path) in
  contents_str ← to_text contents;
  let content_length := N.of_nat (length contents_str) in
  let hashable_contents :=
    lit "blob " ++ decimal content_length ++ [0] ++ contents_str in
  data ← to_bytes hashable_contents;
  let hash_object := Sha1.sha1 data in
  if negb (str_eqb (Sha1.hexdigest hash_object) blob_hash)
  then Raise (EthPMValidationError (Msg.hash_mismatch blob_uri blob_hash))
  else Return tt.

End Uri.

(** ** web3/middleware/validation.py *)

Definition MAX_EXTRADATA_LENGTH : nat := 32.

(** [isinstance(val, (str, int, bytes))]; [bool] is a subclass of [int]. *)
Definition is_str_int_bytes (val : pyval) : bool :=
  match val with
  | PyStr _ | PyInt _ | PyBool _ | PyBytes _ => true
  | PyNone | PyList _ => false
  end.

(** [repr] of a [HexBytes] value. *)
Definition repr_HexBytes (b : bytes) : str :=
  lit "HexBytes('0x"
    ++ concat (map (fun x => Sha1.hex_of 2 (Byte.to_N x)) b) ++ lit "')".

Definition extradata_too_long (result : bytes) : str :=
  lit "The field extraData is " ++ decimal (N.of_nat (length result))
    ++ lit " bytes, but should be "
    ++ decimal (N.of_nat MAX_EXTRADATA_LENGTH) ++ lit ". "
    ++ lit "It is quite likely that you are connected to a POA chain. "
    ++ lit "Refer "
    ++ lit "http://web3py.readthedocs.io/en/stable/middleware.html#geth-style-proof-of-authority "
    ++ lit "for more details. The full extraData is: "
    ++ repr_HexBytes result.

Section Middleware.

Context `{Externals}.

Definition check_extradata_length (val : pyval) : result pyval :=
  if negb (is_str_int_bytes val) then Return val
  else
    result ← call (HexBytes val);
    if (MAX_EXTRADATA_LENGTH <? length result)%nat
    then Raise (ValidationError (extradata_too_long result))
    else Return val.

(** [dissoc(transaction, 'chainId')]: a copy without that key. *)
Definition transaction_normalizer (transaction : gmap str pyval)
  : gmap str pyval :=
  delete (lit "chainId") transaction.

End Middleware.

(** ** A concrete instance of the collaborators

    Used to run the validators on concrete inputs.  The library functions
    follow CPython 3.8 and hexbytes on ASCII input; what is left out is said
    at each definition.  The ethpm collaborators whose code is not part of
    the two files are stand-ins. *)

Module Model.

Definition is_digit (c : char) : bool := Utf8.in_range 48 57 c.
Definition is_upper (c : char) : bool := Utf8.in_range 65 90 c.
Definition is_lower (c : char) : bool := Utf8.in_range 97 122 c.
Definition is_alpha (c : char) : bool := is_upper c || is_lower c.

Definition mem (c : char) (s : str) : bool := existsb (N.eqb c) s.

Definition lower (s : str) : str :=
  map (fun c => if is_upper c then c + 32 else c) s.

(** [s.split(c, 1)] when [c] occurs in [s]: the text before and after
    its first occurrence. *)
Fixpoint cut (c : char) (s : str) : option (str * str) :=
  match s with
  | [] => None
  | x :: r =>
      if N.eqb x c then Some ([], r)
      else match cut c r with
           | Some (a, b) => Some (x :: a, b)
           | None => None
           end
  end.

(** The longest prefix without a character of [stops], and the rest. *)
Fixpoint break_at (stops : str) (s : str) : str * str :=
  match s with
  | [] => ([], [])
  | x :: r =>
      if mem x stops then ([], s)
      else let '(a, b) := break_at stops r in (x :: a, b)
  end.

(** *** urllib.parse *)

Definition is_scheme_char (c : char) : bool :=
  is_alpha c || is_digit c || mem c (lit "+-.").

Definition uses_params : list str :=
  map lit [""; "ftp"; "hdl"; "prospero"; "http"; "imap"; "https"; "shttp";
           "rtsp"; "rtspu"; "sip"; "sips"; "mms"; "sftp"; "tel"]%string.

(** The scheme of [urlsplit]: the text before the first [:], when it is
    not empty, made of scheme characters and not followed by a port
    number only. *)
Definition split_scheme (url : str) : str * str :=
  match cut (chr ":") url with
  | Some (p, rest) =>
      if negb (truthy p) then ([], url)
      else if str_eqb p (lit "http") then (p, rest)
      else if forallb is_scheme_char p
              && (negb (truthy rest) || existsb (fun c => negb (is_digit c)) rest)
      then (lower p, rest)
      else ([], url)
  | None => ([], url)
  end.

(** [_splitparams]. *)
Definition splitparams (url : str) : str * str :=
  let segs := split (chr "/") url in
  let front := removelast segs in
  let seg := last_piece segs in
  match cut (chr ";") seg with
  | Some (a, b) => (join (lit "/") (front ++ [a]), b)
  | None => (url, [])
  end.

(** [urlparse(url)].  Not modelled: the characters that later versions
    strip from the URL, and the normalisation check of a non-ASCII
    network location. *)
Definition urlparse (url : str) : builtin_exn + ParseResult :=
  let '(scheme, url) := split_scheme url in
  let '(netloc, url) :=
    match url with
    | 47 :: 47 :: r => break_at (lit "/?#") r
    | _ => ([], url)
    end in
  if xorb (mem (chr "[") netloc) (mem (chr "]") netloc) then inl ValueError
  else
    let '(url, fragment) :=
      match cut (chr "#") url with Some p => p | None => (url, []) end in
    let '(url, query) :=
      match cut (chr "?") url with Some p => p | None => (url, []) end in
    let '(url, params) :=
      if existsb (str_eqb scheme) uses_params && mem (chr ";") url
      then splitparams url else (url, []) in
    inr {| scheme := scheme; netloc := netloc; path := url;
           params := params; query := query; fragment := fragment |}.

(** [parse_qs(qs, keep_blank_values=True)]: fields separated by [&], a
    name and a value separated by the first [=].  Not modelled: the
    decoding of [%] escapes and [;] as a separator. *)
Definition plus_to_space (s : str) : str :=
  map (fun c => if N.eqb c (chr "+") then chr " " else c) s.

Definition parse_qsl (qs : str) : list (str * str) :=
  omap (fun name_value =>
          if negb (truthy name_value) then None
          else match cut (chr "=") name_value with
               | Some (n, v) => Some (plus_to_space n, plus_to_space v)
               | None => Some (plus_to_space name_value, [])
               end)
       (split (chr "&") qs).

Definition parse_qs (qs : str) : gmap str (list str) :=
  fold_left (fun d '(name, value) =>
               match d !! name with
               | Some l => <[name := l ++ [value]]> d
               | None => <[name := [value]]> d
               end)
            (parse_qsl qs) ∅.

(** *** Built-ins *)

Definition is_space (c : char) : bool :=
  Utf8.in_range 9 13 c || Utf8.in_range 28 32 c.

Fixpoint skip_space (s : str) : str :=
  match s with
  | [] => []
  | c :: r => if is_space c then skip_space r else s
  end.

(** Digits with single underscores between them. *)
Fixpoint digits_value (acc : N) (after_digit : bool) (s : str) : option N :=
  match s with
  | [] => if after_digit then Some acc else None
  | c :: r =>
      if is_digit c then digits_value (10 * acc + (c - 48)) true r
      else if N.eqb c (chr "_") && after_digit then digits_value acc false r
      else None
  end.

(** [int(s)] in base ten.  Not modelled: digits and white space outside
    ASCII, and the limit later versions put on the number of digits. *)
Definition to_int (s : str) : builtin_exn + Z :=
  let body := rev (skip_space (rev (skip_space s))) in
  let '(neg, ds) :=
    match body with
    | 45 :: r => (true, r)
    | 43 :: r => (false, r)
    | _ => (false, body)
    end in
  match digits_value 0 false ds with
  | Some n => inr (if neg then Z.opp (Z.of_N n) else Z.of_N n)
  | None => inl ValueError
  end.

(** [repr(s)]: quoted, with the quote that does not occur in [s] when
    there is one, and escapes for the backslash, the quote and the
    control characters.  Not modelled: escapes of the characters outside
    ASCII that are not printable. *)
Definition escape (quote : char) (c : char) : str :=
  if N.eqb c quote || N.eqb c (chr "\") then [chr "\"; c]
  else if N.eqb c 10 then lit "\n"
  else if N.eqb c 13 then lit "\r"
  else if N.eqb c 9 then lit "\t"
  else if (c <? 32) || N.eqb c 127 then lit "\x" ++ Sha1.hex_of 2 c
  else [c].

Definition repr (s : str) : str :=
  let quote :=
    if mem 39 s && negb (mem 34 s) then 34 else 39 in
  [quote] ++ concat (map (escape quote) s) ++ [quote].

(** *** hexbytes *)

Definition hex_value (c : char) : option N :=
  if is_digit c then Some (c - 48)
  else if Utf8.in_range 97 102 c then Some (c - 87)
  else if Utf8.in_range 65 70 c then Some (c - 55)
  else None.

(** [binascii.unhexlify] on text of even length. *)
Fixpoint unhexlify (s : str) : option bytes :=
  match s with
  | [] => Some []
  | a :: b :: r =>
      match hex_value a, hex_value b, unhexlify r with
      | Some x, Some y, Some l => Some (Utf8.byte_of_N (16 * x + y) :: l)
      | _, _, _ => None
      end
  | _ => None
  end.

Definition hexstr_to_bytes (hexstr : str) : builtin_exn + bytes :=
  let non_prefixed_hex :=
    match hexstr with
    | 48 :: 120 :: r => r
    | 48 :: 88 :: r => r
    | _ => hexstr
    end in
  let padded_hex :=
    if Nat.odd (length hexstr) then chr "0" :: non_prefixed_hex
    else non_prefixed_hex in
  if existsb (fun c => 128 <=? c) padded_hex then inl UnicodeEncodeError
  else match unhexlify padded_hex with
       | Some b => inr b
       | None => inl ValueError
       end.

(** The hexadecimal digits of a number, without leading zeros. *)
Fixpoint hex_digits (fuel : nat) (n : N) (acc : str) : str :=
  match fuel with
  | O => acc
  | S m =>
      let acc := Sha1.hex_digit (n mod 16) :: acc in
      if n / 16 =? 0 then acc else hex_digits m (n / 16) acc
  end.

(** [hex(n)] for [0 <= n]. *)
Definition hex (n : N) : str :=
  lit "0x" ++ hex_digits (S (N.to_nat (N.log2 n))) n [].

(** [HexBytes(val)], by the conversion of [hexbytes._utils.to_bytes]. *)
Definition HexBytes (val : pyval) : builtin_exn + bytes :=
  match val with
  | PyBytes b => inr b
  | PyStr s => hexstr_to_bytes s
  | PyBool b => inr [if b then x01 else x00]
  | PyInt z =>
      if (z <? 0)%Z then inl ValueError
      else hexstr_to_bytes (hex (Z.to_N z))
  | PyNone | PyList _ => inl TypeError
  end.

(** *** ethpm *)

(** Modelled from the spec: [is_supported_chain_id] is not part of the
    two files; the documented known values are 1, 3, 4, 5 and 42. *)
Definition is_supported_chain_id (id : Z) : bool :=
  existsb (Z.eqb id) [1; 3; 4; 5; 42]%Z.

(** Modelled from the spec: [REGISTRY_URI_SCHEME] is not part of the two
    files; the registry URIs of the spec start with [erc1319://]. *)
Definition REGISTRY_URI_SCHEME : str := lit "erc1319".

(** Modelled from the spec: [is_ipfs_uri] is not part of the two files;
    a stand-in that recognises the URIs of scheme [ipfs] with something
    after it. *)
Definition is_ipfs_uri (uri : str) : bool :=
  match urlparse uri with
  | inr p => str_eqb (scheme p) (lit "ipfs")
             && (truthy (netloc p) || truthy (path p))
  | inl _ => false
  end.

(** Modelled from the spec: [is_ens_domain] is not part of the two files;
    a stand-in for the domain-style pattern: two or three labels, the
    last one [eth]. *)
Definition is_ens_domain (authority : str) : bool :=
  let labels := split (chr ".") authority in
  str_eqb (last_piece labels) (lit "eth")
  && ((length labels =? 2)%nat || (length labels =? 3)%nat).

(** Stand-in for [is_checksum_address]: the mixed-case test addresses of
    the checksum convention. *)
Definition is_checksum_address (value : str) : bool :=
  existsb (str_eqb value)
    (map lit ["0x5aAeb6053F3E94C9b9A09f33669435E7Ef1BeAed";
              "0xfB6916095ca1df60bB79Ce92cE3Ea74c37c5d359";
              "0xdbF03B407c01E7cD3CBea99509d93f8DDDC8C6FB";
              "0xD1220A0cf47c7B9Be7A2E6BA89F429762e7b9aDb"]%string).

(** Modelled from the spec: [validate_package_name] is not part of the
    two files; a stand-in that accepts a letter followed by letters,
    digits and hyphens. *)
Definition validate_package_name (name : str) : result unit :=
  match name with
  | c :: r =>
      if is_alpha c
         && forallb (fun x => is_alpha x || is_digit x || N.eqb x (chr "-")) r
      then Return tt
      else Raise (EthPMValidationError
                    (name ++ lit " is not a valid package name."))
  | [] => Raise (EthPMValidationError
                   (name ++ lit " is not a valid package name."))
  end.

(** Modelled from the spec: [check_if_chain_matches_chain_uri] is not
    part of the two files; a stand-in where the chain handle is the
    chain's genesis hash in hexadecimal and a URI matches when its
    network location is that hash. *)
Definition check_if_chain_matches_chain_uri (w3 : str) (uri : str) : bool :=
  match urlparse uri with
  | inr p => str_eqb (netloc p) w3
  | inl _ => false
  end.

Definition model : Externals :=
  Build_Externals str urlparse parse_qs is_checksum_address to_int repr
    HexBytes is_supported_chain_id is_ipfs_uri is_ens_domain
    REGISTRY_URI_SCHEME validate_package_name
    check_if_chain_matches_chain_uri.

End Model.

(** ** Sample data *)

Module Sample.

Definition hello_digest : str := lit "b6fc4c620b67d95f953a5c1c1230aaab5db5a1b0".

Definition zero_digest : str := lit "0000000000000000000000000000000000000000".

Definition blobs : str :=
  lit "https://api.github.com/repos/ethpm/ethpm-spec/git/blobs/".

(** A blob URI that ends with the digest of the framing of [hello]. *)
Definition hello_uri : str := blobs ++ hello_digest.

(** A blob URI that ends with another digest. *)
Definition zero_uri : str := blobs ++ zero_digest.

Definition blob_parsed (blob_hash : str) : ParseResult :=
  {| scheme := lit "https"; netloc := lit "api.github.com";
     path := lit "/repos/ethpm/ethpm-spec/git/blobs/" ++ blob_hash;
     params := []; query := []; fragment := [] |}.

Definition address : str := lit "0x5aAeb6053F3E94C9b9A09f33669435E7Ef1BeAed".

(** The registry URIs of the specification with an empty package path. *)
Definition empty_path_uri : str := lit "erc1319://" ++ address ++ lit ":1/".

Definition empty_path_version_uri : str :=
  empty_path_uri ++ lit "?version=1.0.0".

Definition empty_path_parsed (query : str) : ParseResult :=
  {| scheme := lit "erc1319"; netloc := address ++ lit ":1";
     path := lit "/"; params := []; query := query; fragment := [] |}.

(** A registry URI with two colons in the authority, an empty package
    path and a query. *)
Definition two_colons_uri : str :=
  lit "erc1319://foo.eth:1:2/?version=1.0.0".

Definition two_colons_parsed : ParseResult :=
  {| scheme := lit "erc1319"; netloc := lit "foo.eth:1:2";
     path := lit "/"; params := []; query := lit "version=1.0.0";
     fragment := [] |}.

(** Three chain URIs, two of them on the chain [aa]. *)
Definition a1 : str := lit "blockchain://aa/block/1".
Definition b2 : str := lit "blockchain://bb/block/2".
Definition a3 : str := lit "blockchain://aa/block/3".

(** Extra data of 33 and of 32 bytes. *)
Definition long_extradata : pyval :=
  PyStr (lit "0x000102030405060708090a0b0c0d0e0f101112131415161718191a1b1c1d1e1f20").

Definition short_extradata : pyval :=
  PyStr (lit "0x000102030405060708090a0b0c0d0e0f101112131415161718191a1b1c1d1e1f").

Definition value_only : gmap str pyval := <[lit "value" := PyInt 10]> ∅.

Definition with_chain_id : gmap str pyval :=
  <[lit "chainId" := PyInt 1]> value_only.

End Sample.

(** ** Vocabulary of the specification

    The code has one exception class, [EthPMValidationError]; the failures
    the specification names are told apart by their message. *)

Inductive kind :=
| InvalidURI
| InvalidURIScheme
| MalformedAuthority
| InvalidAuthorityIdentity
| UnsupportedChainID
| MissingPackageName
| MissingVersionKey
| NoMatchingURI
| AmbiguousMatch
| ContentHashMismatch.

Definition has_kind `{Externals} (k : kind) (e : exn) : Prop :=
  match k with
  | InvalidURI => exists uri, e = EthPMValidationError (Msg.invalid_ipfs_uri uri)
  | InvalidURIScheme =>
      exists s, e = EthPMValidationError (Msg.invalid_scheme s)
  | MalformedAuthority =>
      exists auth, e = EthPMValidationError (Msg.malformed_authority auth)
  | InvalidAuthorityIdentity =>
      exists address, e = EthPMValidationError (Msg.invalid_identity address)
  | UnsupportedChainID =>
      exists chain_id,
        e = EthPMValidationError (Msg.unsupported_chain_id chain_id)
  | MissingPackageName => e = EthPMValidationError Msg.missing_package_name
  | MissingVersionKey =>
      exists q, e = EthPMValidationError (Msg.missing_version_key q)
  | NoMatchingURI => e = EthPMValidationError Msg.no_matching_uri
  | AmbiguousMatch =>
      exists l, e = EthPMValidationError (Msg.too_many_matching l)
  | ContentHashMismatch =>
      exists uri h, e = EthPMValidationError (Msg.hash_mismatch uri h)
  end.

(** An exception of the validation-error family of ethpm. *)
Definition is_validation_error (e : exn) : Prop :=
  exists msg, e = EthPMValidationError msg.

(** The framing of the contents of a blob before hashing, on the decoded
    text. *)
Definition frame (contents_str : str) : str :=
  lit "blob " ++ decimal (N.of_nat (length contents_str)) ++ [0]
    ++ contents_str.

(** The hexadecimal digest of the framed text. *)
Definition framed_digest (contents_str : str) : option str :=
  (fun data => Sha1.hexdigest (Sha1.sha1 data)) <$> Utf8.encode (frame contents_str).

(** The number of occurrences of a character. *)
Definition count (c : char) (s : str) : nat := count_occ N.eq_dec s c.

(** ** The rest of web3/middleware/validation.py

    The request and result formatters are built from the formatters of
    eth_utils ([apply_formatter_if], [apply_formatters_to_dict],
    [apply_formatter_at_index]) and from [compose] and [dissoc] of
    toolz. *)

(** What the middleware needs beside [Externals]. *)
Class Runtime `{Externals} := {
  (** [web3.eth.chainId]: the answer of the node, the same for every
      access within one call of a formatter *)
  eth_chainId : Web3 -> result pyval;
  (** [int(v)] *)
  py_int : pyval -> builtin_exn + Z;
  (** [repr(v)] *)
  py_repr : pyval -> str
}.

(** A parameter or a result of a request: a mapping with string keys, or
    another value. *)
Inductive rpcval :=
| Mapping (d : gmap str pyval)
| Plain (v : pyval).

(** The formatters can raise two more built-in exceptions. *)
Inductive rpc_exn :=
| Py (e : exn)
| IndexError
| AttributeError.

Inductive rpc_result (A : Type) :=
| Ok (a : A)
| Err (e : rpc_exn).
Arguments Ok {A} a.
Arguments Err {A} e.

Definition rpc_bind {A B} (m : rpc_result A) (k : A -> rpc_result B)
  : rpc_result B :=
  match m with
  | Ok a => k a
  | Err e => Err e
  end.

Definition lift {A} (r : result A) : rpc_result A :=
  match r with
  | Return a => Ok a
  | Raise e => Err (Py e)
  end.

(** [is_null] and [is_not_null = complement(is_null)]. *)
Definition is_null (v : rpcval) : bool :=
  match v with
  | Plain PyNone => true
  | _ => false
  end.

Definition is_not_null (v : rpcval) : bool := negb (is_null v).

(** [n == v] for an integer [n]: equal to the same integer, and to the
    boolean that counts as it. *)
Definition int_eq (n : Z) (v : pyval) : bool :=
  match v with
  | PyInt m => Z.eqb n m
  | PyBool b => Z.eqb n (if b then 1 else 0)
  | _ => false
  end.

(** The exception that [raise type(exc)(message)] raises for a caught
    [TypeError] or [ValueError]: one of the same type; the constructors of
    the two Unicode errors do not accept a single message, which is a
    [TypeError]. *)
Definition reraise (e : builtin_exn) : builtin_exn :=
  match e with
  | ValueError => ValueError
  | TypeError => TypeError
  | UnicodeDecodeError | UnicodeEncodeError => TypeError
  end.

(** The [try] block of [apply_formatters_to_dict] around one formatter:
    [except (TypeError, ValueError)] catches the built-in exceptions of
    this development; the validation errors pass. *)
Definition format_item (formatter : pyval -> rpc_result pyval) (item : pyval)
  : rpc_result pyval :=
  match formatter item with
  | Err (Py (Builtin e)) => Err (Py (Builtin (reraise e)))
  | r => r
  end.

(** [apply_formatters_to_dict({key: formatter}, value)]: a mapping like
    [value] where the item of [key], if there is one, is formatted; a value
    without [items()] is an [AttributeError]. *)
Definition apply_formatters_to_dict
    (key : str) (formatter : pyval -> rpc_result pyval) (value : rpcval)
  : rpc_result rpcval :=
  match value with
  | Mapping d =>
      match d !! key with
      | Some item =>
          rpc_bind (format_item formatter item)
                   (fun v => Ok (Mapping (<[key := v]> d)))
      | None => Ok (Mapping d)
      end
  | Plain _ => Err AttributeError
  end.

(** [apply_formatter_if(condition, formatter, value)]. *)
Definition apply_formatter_if {A}
    (condition : A -> rpc_result bool) (formatter : A -> rpc_result A)
    (value : A) : rpc_result A :=
  rpc_bind (condition value)
           (fun c => if c then formatter value else Ok value).

(** [apply_formatter_at_index(formatter, at_index, value)]. *)
Definition apply_formatter_at_index
    (formatter : rpcval -> rpc_result rpcval) (at_index : nat)
    (value : list rpcval) : rpc_result (list rpcval) :=
  if (length value <? at_index + 1)%nat then Err IndexError
  else
    match value !! at_index with
    | Some item =>
        rpc_bind (formatter item) (fun v => Ok (<[at_index := v]> value))
    | None => Err IndexError
    end.

Definition chain_id_mismatch `{Runtime} (chain_id node_chain_id : pyval)
  : str :=
  lit "The transaction declared chain ID " ++ py_repr chain_id
    ++ lit ", but the connected node is on " ++ py_repr node_chain_id.

Section Validators.

Context `{Runtime}.

Definition validate_chain_id (web3 : Web3) (chain_id : pyval)
  : result pyval :=
  n ← call (py_int chain_id);
  node ← eth_chainId web3;
  if int_eq n node then Return chain_id
  else
    node ← eth_chainId web3;
    Raise (ValidationError (chain_id_mismatch chain_id node)).

(** The validator of the [chainId] item: [validate_chain_id], passed by
    when the node does not tell its chain id. *)
Definition chain_id_item_validator (web3 : Web3)
  : pyval -> rpc_result pyval :=
  apply_formatter_if
    (fun _ => rpc_bind (lift (eth_chainId web3))
                       (fun node => Ok (is_not_null (Plain node))))
    (fun chain_id => lift (validate_chain_id web3 chain_id)).

Definition transaction_param_validator (web3 : Web3)
  : list rpcval -> rpc_result (list rpcval) :=
  apply_formatter_at_index
    (apply_formatters_to_dict (lit "chainId") (chain_id_item_validator web3))
    0.

(** [transaction_normalizer] as a formatter of a parameter.  On a value
    that is not a mapping [dissoc] raises; which exception depends on the
    implementation of toolz, and [chain_id_validator] does not get
    there. *)
Definition normalize_param (v : rpcval) : rpc_result rpcval :=
  match v with
  | Mapping d => Ok (Mapping (transaction_normalizer d))
  | Plain _ => Err (Py (Builtin TypeError))
  end.

(** [compose(f, g)] applies [g], then [f]. *)
Definition chain_id_validator (web3 : Web3)
  : list rpcval -> rpc_result (list rpcval) :=
  fun params =>
    rpc_bind (transaction_param_validator web3 params)
             (apply_formatter_at_index normalize_param 0).

(** [block_validator]: the formatter of [BLOCK_VALIDATORS], on a block
    that is not [None]. *)
Definition block_validator : rpcval -> rpc_result rpcval :=
  apply_formatter_if
    (fun block => Ok (is_not_null block))
    (apply_formatters_to_dict
       (lit "extraData") (fun val => lift (check_extradata_length val))).

End Validators.

(** A concrete [Runtime] beside [Model.model]. *)
Module ModelRuntime.

(** [repr] of an integer. *)
Definition repr_int (z : Z) : str :=
  if (z <? 0)%Z then lit "-" ++ decimal (Z.to_N (Z.opp z))
  else decimal (Z.to_N z).

(** [repr] of [bytes]: the printable ASCII as it is, the rest escaped. *)
Definition repr_byte (quote : char) (b : byte) : str :=
  let c := Byte.to_N b in
  if N.eqb c quote || N.eqb c 92 then [92; c]
  else if N.eqb c 10 then lit "\n"
  else if N.eqb c 13 then lit "\r"
  else if N.eqb c 9 then lit "\t"
  else if (c <? 32) || (127 <=? c) then lit "\x" ++ Sha1.hex_of 2 c
  else [c].

Definition repr_bytes (b : bytes) : str :=
  let l := map Byte.to_N b in
  let quote := if Model.mem 39 l && negb (Model.mem 34 l) then 34 else 39 in
  lit "b" ++ [quote] ++ concat (map (repr_byte quote) b) ++ [quote].

(** [repr(v)]. *)
Fixpoint py_repr (v : pyval) : str :=
  match v with
  | PyNone => lit "None"
  | PyBool b => if b then lit "True" else lit "False"
  | PyInt z => repr_int z
  | PyStr s => Model.repr s
  | PyBytes b => repr_bytes b
  | PyList l => lit "[" ++ join (lit ", ") (map py_repr l) ++ lit "]"
  end.

(** [int(v)].  For [bytes], the ASCII text is read like a string. *)
Definition py_int (v : pyval) : builtin_exn + Z :=
  match v with
  | PyInt z => inr z
  | PyBool b => inr (if b then 1 else 0)%Z
  | PyStr s => Model.to_int s
  | PyBytes b =>
      if forallb (fun x => Byte.to_N x <? 128) b
      then Model.to_int (map Byte.to_N b)
      else inl ValueError
  | PyNone | PyList _ => inl TypeError
  end.

(** Stand-in for the node: a handle that reads as a number is a node of
    that chain; any other handle is a node that does not tell its chain
    id. *)
Definition eth_chainId (web3 : str) : result pyval :=
  match Model.to_int web3 with
  | inr n => Return (PyInt n)
  | inl _ => Return PyNone
  end.

Definition runtime : @Runtime Model.model :=
  @Build_Runtime Model.model eth_chainId py_int py_repr.

End ModelRuntime.

(** More sample data. *)
Module SampleMore.

Import Sample.

Definition parsed_registry (netloc path query : str) : ParseResult :=
  {| scheme := lit "erc1319"; netloc := netloc; path := path; params := [];
     query := query; fragment := [] |}.

Definition accepted_uri : str :=
  lit "erc1319://" ++ address ++ lit ":1/mypackage?version=1.0.0".

Definition accepted_parsed : ParseResult :=
  parsed_registry (address ++ lit ":1") (lit "/mypackage")
    (lit "version=1.0.0").

(** A package name that starts with a digit, and a query without a
    version. *)
Definition bad_name_uri : str :=
  lit "erc1319://" ++ address ++ lit ":1/1bad?foo=1".

Definition bad_name_parsed : ParseResult :=
  parsed_registry (address ++ lit ":1") (lit "/1bad") (lit "foo=1").

Definition no_version_uri : str :=
  lit "erc1319://" ++ address ++ lit ":1/mypackage?foo=1".

Definition no_version_parsed : ParseResult :=
  parsed_registry (address ++ lit ":1") (lit "/mypackage") (lit "foo=1").

(** A registry URI whose chain id is not a number, with an empty package
    path and a query. *)
Definition text_chain_uri : str := lit "erc1319://foo.eth:abc/?version=1.0.0".

Definition text_chain_parsed : ParseResult :=
  parsed_registry (lit "foo.eth:abc") (lit "/") (lit "version=1.0.0").

Definition http_uri : str := lit "http://foo.eth:1/mypackage".

Definition http_parsed : ParseResult :=
  {| scheme := lit "http"; netloc := lit "foo.eth:1";
     path := lit "/mypackage"; params := []; query := []; fragment := [] |}.

(** The two bytes of the letter e with an acute accent. *)
Definition eacute : bytes := [xc3; xa9].

Definition latest : rpcval := Plain (PyStr (lit "latest")).

Definition text_chain_id : gmap str pyval :=
  <[lit "chainId" := PyStr (lit "mainnet")]> value_only.

Definition block_of (extra_data : pyval) : gmap str pyval :=
  <[lit "extraData" := extra_data]> (<[lit "number" := PyInt 1]> ∅).

End SampleMore.

(* ================================================================= *)
(** * Properties *)

(** ** Strings *)

Lemma split_length sep s : length (split sep s) = S (count sep s).
Proof.
  unfold count. induction s as [|c r IH]; simpl; [reflexivity|].
  destruct (N.eqb_spec c sep) as [->|Hne].
  - destruct (N.eq_dec sep sep); [|congruence]. simpl. now rewrite IH.
  - destruct (N.eq_dec c sep); [congruence|].
    destruct (split sep r); simpl in *; [discriminate|exact IH].
Qed.

Lemma split_two sep s a b : split sep s = [a; b] -> count sep s = 1%nat.
Proof.
  intros Hs. pose proof (split_length sep s) as Hl.
  rewrite Hs in Hl. simpl in Hl. lia.
Qed.

Lemma startswith_app x post : startswith x (x ++ post) = true.
Proof.
  induction x as [|a x IH]; simpl; [reflexivity|].
  now rewrite N.eqb_refl, IH.
Qed.

Lemma startswith_inv x s : startswith x s = true -> exists post, s = x ++ post.
Proof.
  revert s. induction x as [|a x IH]; intros s Hs; simpl in *.
  - now exists s.
  - destruct s as [|b s]; [discriminate|].
    apply andb_true_iff in Hs as [Hab Hs].
    apply N.eqb_eq in Hab as ->.
    destruct (IH _ Hs) as [post ->]. now exists post.
Qed.

Lemma containsb_startswith s x : startswith x s = true -> containsb s x = true.
Proof. intros Hx. destruct s; simpl; now rewrite Hx. Qed.

Lemma containsb_spec s x : containsb s x = true <-> contains s x.
Proof.
  split.
  - induction s as [|c s IH]; simpl; intros Hc.
    + rewrite orb_false_r in Hc. apply startswith_inv in Hc as [post ->].
      now exists [], post.
    + apply orb_true_iff in Hc as [Hc|Hc].
      * apply startswith_inv in Hc as [post ->]. now exists [], post.
      * destruct (IH Hc) as (pre & post & ->). now exists (c :: pre), post.
  - intros (pre & post & ->). induction pre as [|c pre IH]; simpl.
    + apply containsb_startswith, startswith_app.
    + rewrite IH. apply orb_true_r.
Qed.

Lemma contains_mid pre x post : contains (pre ++ x ++ post) x.
Proof. now exists pre, post. Qed.

Lemma contains_app_l s t x : contains s x -> contains (s ++ t) x.
Proof.
  intros (pre & post & ->). exists pre, (post ++ t).
  now rewrite <- !app_assoc.
Qed.

Lemma contains_app_r s t x : contains t x -> contains (s ++ t) x.
Proof.
  intros (pre & post & ->). exists (s ++ pre), post.
  now rewrite <- !app_assoc.
Qed.

Lemma contains_refl x : contains x x.
Proof. exists [], []. now rewrite app_nil_r. Qed.

Create HintDb contains.
#[local] Hint Resolve contains_mid contains_app_l contains_app_r
  contains_refl : contains.

Lemma str_eqb_eq a b : str_eqb a b = true <-> a = b.
Proof. unfold str_eqb. apply bool_decide_eq_true. Qed.

Lemma str_eqb_neq a b : str_eqb a b = false <-> a <> b.
Proof. unfold str_eqb. apply bool_decide_eq_false. Qed.

Lemma truthy_false s : truthy s = false <-> s = [].
Proof. destruct s; simpl; split; congruence. Qed.

Lemma truthy_true s : truthy s = true <-> s <> [].
Proof. destruct s; simpl; split; congruence. Qed.

(** ** The result monad *)

Lemma bind_Return {A B} (a : A) (k : A -> result B) : (Return a ≫= k) = k a.
Proof. reflexivity. Qed.

Lemma bind_Raise {A B} (e : exn) (k : A -> result B) :
  (Raise e ≫= k) = Raise e.
Proof. reflexivity. Qed.

Lemma call_inr {A} (a : A) : call (inr a) = Return a.
Proof. reflexivity. Qed.

Lemma call_inl {A} (e : builtin_exn) : @call A (inl e) = Raise (Builtin e).
Proof. reflexivity. Qed.

Ltac run :=
  repeat (rewrite ?bind_Return, ?bind_Raise, ?call_inr, ?call_inl; cbv zeta).

Ltac run_in H :=
  repeat (rewrite ?bind_Return, ?bind_Raise, ?call_inr, ?call_inl in H;
          cbv zeta in H).

(** ** Authority of a registry URI *)

Section Authority.

Context `{Externals}.

(** The authority validator, case by case. *)
Lemma authority_not_two_parts auth :
  count (chr ":") auth <> 1%nat ->
  validate_registry_uri_authority auth
  = Raise (EthPMValidationError (Msg.malformed_authority auth)).
Proof.
  intros Hc. unfold validate_registry_uri_authority.
  destruct (split (chr ":") auth) as [|a [|b [|c l]]] eqn:Hs; try reflexivity.
  apply split_two in Hs. contradiction.
Qed.

Lemma authority_bad_identity auth address chain_id :
  split (chr ":") auth = [address; chain_id] ->
  is_ens_domain address = false ->
  is_checksum_address address = false ->
  validate_registry_uri_authority auth
  = Raise (EthPMValidationError (Msg.invalid_identity address)).
Proof.
  intros Hs He Hc. unfold validate_registry_uri_authority.
  now rewrite Hs, He, Hc.
Qed.

Lemma authority_chain_id auth address chain_id :
  split (chr ":") auth = [address; chain_id] ->
  is_ens_domain address || is_checksum_address address = true ->
  validate_registry_uri_authority auth
  = (n ← call (to_int chain_id);
     if negb (is_supported_chain_id n)
     then Raise (EthPMValidationError (Msg.unsupported_chain_id chain_id))
     else Return tt).
Proof.
  intros Hs Hid. unfold validate_registry_uri_authority. rewrite Hs.
  rewrite <- negb_orb, Hid. reflexivity.
Qed.

Lemma authority_unsupported auth address chain_id n :
  split (chr ":") auth = [address; chain_id] ->
  is_ens_domain address || is_checksum_address address = true ->
  to_int chain_id = inr n ->
  is_supported_chain_id n = false ->
  validate_registry_uri_authority auth
  = Raise (EthPMValidationError (Msg.unsupported_chain_id chain_id)).
Proof.
  intros Hs Hid Hn Hsup. rewrite (authority_chain_id _ _ _ Hs Hid), Hn.
  run. now rewrite Hsup.
Qed.

Lemma authority_accepted auth address chain_id n :
  split (chr ":") auth = [address; chain_id] ->
  is_ens_domain address || is_checksum_address address = true ->
  to_int chain_id = inr n ->
  is_supported_chain_id n = true ->
  validate_registry_uri_authority auth = Return tt.
Proof.
  intros Hs Hid Hn Hsup. rewrite (authority_chain_id _ _ _ Hs Hid), Hn.
  run. now rewrite Hsup.
Qed.

(** The message of an unsupported chain id names the chain id and lists
    the supported ones. *)
Lemma unsupported_message_enumerates chain_id :
  contains (Msg.unsupported_chain_id chain_id) chain_id
  /\ contains (Msg.unsupported_chain_id chain_id)
       (lit "1 (mainnet), 3 (ropsten), 4 (rinkeby), 5 (goerli) and 42 (kovan)").
Proof.
  unfold Msg.unsupported_chain_id. split.
  - apply contains_mid.
  - apply contains_app_r, contains_app_r, contains_app_r.
    exists [], (lit ". Please try again with a valid registry URI.").
    reflexivity.
Qed.

(** Every failure of the authority validator: one of the three typed
    failures, or the built-in exception of [to_int]. *)
Lemma authority_failure auth e :
  validate_registry_uri_authority auth = Raise e ->
  has_kind MalformedAuthority e
  \/ has_kind InvalidAuthorityIdentity e
  \/ has_kind UnsupportedChainID e
  \/ exists address chain_id b,
       split (chr ":") auth = [address; chain_id]
       /\ to_int chain_id = inl b /\ e = Builtin b.
Proof.
  unfold validate_registry_uri_authority.
  destruct (split (chr ":") auth) as [|a [|b [|c l]]] eqn:Hs;
    try (intros [= <-]; left; now exists auth).
  destruct (negb (is_ens_domain a) && negb (is_checksum_address a)).
  - intros [= <-]. right; left. now exists a.
  - destruct (to_int b) as [x|n] eqn:Hn; run.
    + intros [= <-]. right; right; right. now exists a, b, x.
    + destruct (negb (is_supported_chain_id n)); [|discriminate].
      intros [= <-]. right; right; left. now exists b.
Qed.

End Authority.

(** ** Registry URIs *)

Section Registry.

Context `{Externals}.

(** A message that ends with the advice of the authority validator is
    not the message about the missing package name. *)
Lemma advice_not_missing_package_name pre :
  pre ++ lit "Please try again with a valid registry URI."
  <> Msg.missing_package_name.
Proof.
  intros Heq. apply (f_equal (fun l => firstn 2 (rev l))) in Heq.
  rewrite rev_app_distr in Heq. vm_compute in Heq. discriminate.
Qed.

Lemma authority_failure_not_missing_package_name auth e :
  validate_registry_uri_authority auth = Raise e ->
  ~ has_kind MissingPackageName e.
Proof.
  intros Hv Hk. simpl in Hk. subst e.
  apply authority_failure in Hv
    as [[a Ha]|[[a Ha]|[[a Ha]|(a & c & b & _ & _ & Ha)]]];
    try discriminate; injection Ha as Ha; symmetry in Ha; revert Ha.
  - unfold Msg.malformed_authority. rewrite !app_assoc.
    apply advice_not_missing_package_name.
  - unfold Msg.invalid_identity. rewrite !app_assoc.
    apply advice_not_missing_package_name.
Qed.

(** The scheme is checked first. *)
Lemma registry_uri_bad_scheme uri p :
  urlparse uri = inr p ->
  scheme p <> REGISTRY_URI_SCHEME ->
  validate_registry_uri uri
  = Raise (EthPMValidationError (Msg.invalid_scheme (scheme p))).
Proof.
  intros Hp Hs. unfold validate_registry_uri, validate_registry_uri_scheme.
  rewrite Hp. run. apply str_eqb_neq in Hs. now rewrite Hs.
Qed.

(** Once the scheme is accepted, the authority is validated and the rest
    follows. *)
Lemma registry_uri_after_scheme uri p :
  urlparse uri = inr p ->
  scheme p = REGISTRY_URI_SCHEME ->
  validate_registry_uri uri
  = (validate_registry_uri_authority (netloc p);;
     let pkg_name := strip (chr "/") (path p) in
     (if truthy pkg_name then validate_package_name pkg_name
      else Return tt);;
     (if negb (truthy pkg_name) && truthy (query p)
      then Raise (EthPMValidationError Msg.missing_package_name)
      else Return tt);;
     if truthy (query p) then validate_registry_uri_version (query p)
     else Return tt).
Proof.
  intros Hp Hs. unfold validate_registry_uri, validate_registry_uri_scheme.
  rewrite Hp. run. apply str_eqb_eq in Hs. now rewrite Hs.
Qed.

(** X25. In a registry URI whose scheme is the registry scheme and whose
    authority is rejected by the authority validator, the failure of
    [validate_registry_uri] is the failure of the authority validator,
    whatever the path and the query are; it is never the failure about a
    version without a package name, and when it is a validation error it
    is one of the three authority failures. *)
Theorem authority_error_surfaces_first uri p e :
  urlparse uri = inr p ->
  scheme p = REGISTRY_URI_SCHEME ->
  validate_registry_uri_authority (netloc p) = Raise e ->
  validate_registry_uri uri = Raise e
  /\ ~ has_kind MissingPackageName e
  /\ (is_validation_error e ->
      has_kind MalformedAuthority e
      \/ has_kind InvalidAuthorityIdentity e
      \/ has_kind UnsupportedChainID e).
Proof.
  intros Hp Hs Ha. split; [|split].
  - rewrite (registry_uri_after_scheme _ _ Hp Hs), Ha. reflexivity.
  - eapply authority_failure_not_missing_package_name; eauto.
  - intros [m ->].
    apply authority_failure in Ha as [?|[?|[?|(a & c & b & _ & _ & Hb)]]];
      auto; discriminate.
Qed.

(** C5. In a registry URI with the registry scheme whose authority has an
    accepted identity and a chain id that [to_int] does not read, the
    failure of [validate_registry_uri] is the built-in exception of
    [to_int], whatever the path and the query are: it comes before the
    failure about a version without a package name, but it is not a
    validation error, and so none of the three authority failures. *)
Theorem unparsable_chain_id_surfaces_untyped uri p address chain_id b :
  urlparse uri = inr p ->
  scheme p = REGISTRY_URI_SCHEME ->
  split (chr ":") (netloc p) = [address; chain_id] ->
  is_ens_domain address || is_checksum_address address = true ->
  to_int chain_id = inl b ->
  validate_registry_uri uri = Raise (Builtin b)
  /\ ~ has_kind MissingPackageName (Builtin b)
  /\ ~ is_validation_error (Builtin b)
  /\ ~ (has_kind MalformedAuthority (Builtin b)
        \/ has_kind InvalidAuthorityIdentity (Builtin b)
        \/ has_kind UnsupportedChainID (Builtin b)).
Proof.
  intros Hp Hs Hsplit Hid Hn. split; [|split; [|split]].
  - rewrite (registry_uri_after_scheme _ _ Hp Hs).
    rewrite (authority_chain_id _ _ _ Hsplit Hid), Hn. reflexivity.
  - intros Hk. simpl in Hk. discriminate.
  - intros [m Hm]. discriminate.
  - intros [[a Ha]|[[a Ha]|[a Ha]]]; discriminate.
Qed.

(** C6. In a registry URI with the registry scheme and an accepted
    authority, whose path is empty once the slashes are stripped: with a
    query the validation fails with the failure about a version without
    a package name, without a query it succeeds. *)
Theorem empty_package_name uri p :
  urlparse uri = inr p ->
  scheme p = REGISTRY_URI_SCHEME ->
  validate_registry_uri_authority (netloc p) = Return tt ->
  strip (chr "/") (path p) = [] ->
  (query p <> [] ->
   validate_registry_uri uri
   = Raise (EthPMValidationError Msg.missing_package_name))
  /\ (query p = [] -> validate_registry_uri uri = Return tt).
Proof.
  intros Hp Hs Ha Hn.
  rewrite (registry_uri_after_scheme _ _ Hp Hs), Ha, Hn. run. simpl truthy.
  run. split; intros Hq.
  - apply truthy_true in Hq. now rewrite Hq.
  - rewrite Hq. reflexivity.
Qed.

End Registry.

(** ** UTF-8: decoded text can be encoded again *)

Ltac Zify.zify_post_hook ::= Z.to_euclidean_division_equations.

Ltac b2p :=
  unfold Utf8.cont, Utf8.in_range, Utf8.scalar in *;
  repeat match goal with
  | H : _ && _ = true |- _ => apply andb_true_iff in H as [? ?]
  | H : _ || _ = false |- _ => apply orb_false_iff in H as [? ?]
  | H : (_ <=? _) = true |- _ => apply N.leb_le in H
  | H : (_ <=? _) = false |- _ => apply N.leb_gt in H
  | H : (_ <? _) = true |- _ => apply N.ltb_lt in H
  | H : (_ <? _) = false |- _ => apply N.ltb_ge in H
  | H : (_ =? _) = true |- _ => apply N.eqb_eq in H
  | H : (_ =? _) = false |- _ => apply N.eqb_neq in H
  end.

Lemma scalar_intro c :
  c < 0xD800 \/ (0xE000 <= c /\ c <= 0x10FFFF) -> Utf8.scalar c = true.
Proof.
  unfold Utf8.scalar, Utf8.in_range. intros [Hc|[Hl Hh]].
  - apply N.ltb_lt in Hc. now rewrite Hc.
  - apply N.leb_le in Hl, Hh. rewrite Hl, Hh. apply orb_true_r.
Qed.

Lemma decode_N_scalar n : forall l s,
  (length l <= n)%nat -> Utf8.decode_N l = Some s ->
  Forall (fun c => Utf8.scalar c = true) s.
Proof.
  induction n as [|n IH]; intros l s Hl.
  - destruct l; [|simpl in Hl; lia]. intros [= <-]. constructor.
  - destruct l as [|b0 r0]; [intros [= <-]; constructor|].
    simpl in Hl. cbn [Utf8.decode_N].
    destruct (b0 <? 0x80) eqn:H0.
    { destruct (Utf8.decode_N r0) as [s0|] eqn:Hr; [|discriminate].
      intros [= <-]. constructor; [|apply (IH r0); [lia|done]].
      apply scalar_intro. b2p. lia. }
    destruct (Utf8.in_range 0xC2 0xDF b0) eqn:H1.
    { destruct r0 as [|b1 r1]; [discriminate|].
      destruct (Utf8.cont b1) eqn:Hc1; [|discriminate].
      destruct (Utf8.decode_N r1) as [s0|] eqn:Hr; [|discriminate].
      intros [= <-]. constructor; [|apply (IH r1); [simpl in Hl; lia|done]].
      apply scalar_intro. b2p. lia. }
    destruct (Utf8.in_range 0xE0 0xEF b0) eqn:H2.
    { destruct r0 as [|b1 [|b2 r2]]; try discriminate.
      match goal with
      | |- context [if ?b then _ else _] => destruct b eqn:Hc
      end; [|discriminate].
      destruct (Utf8.decode_N r2) as [s0|] eqn:Hr; [|discriminate].
      intros [= <-]. constructor; [|apply (IH r2); [simpl in Hl; lia|done]].
      apply scalar_intro.
      destruct (b0 =? 0xE0) eqn:E0; destruct (b0 =? 0xED) eqn:E1; b2p; lia. }
    destruct (Utf8.in_range 0xF0 0xF4 b0) eqn:H3; [|discriminate].
    destruct r0 as [|b1 [|b2 [|b3 r3]]]; try discriminate.
    match goal with
    | |- context [if ?b then _ else _] => destruct b eqn:Hc
    end; [|discriminate].
    destruct (Utf8.decode_N r3) as [s0|] eqn:Hr; [|discriminate].
    intros [= <-]. constructor; [|apply (IH r3); [simpl in Hl; lia|done]].
    apply scalar_intro.
    destruct (b0 =? 0xF0) eqn:E0; destruct (b0 =? 0xF4) eqn:E1; b2p; lia.
Qed.

Lemma decode_scalar b s :
  Utf8.decode b = Some s -> Forall (fun c => Utf8.scalar c = true) s.
Proof. unfold Utf8.decode. now apply (decode_N_scalar (length (map Byte.to_N b))). Qed.

Lemma encode_scalar s :
  Forall (fun c => Utf8.scalar c = true) s -> is_Some (Utf8.encode s).
Proof.
  induction 1 as [|c s Hc _ [b Hb]]; simpl; [now eexists|].
  rewrite Hc, Hb. now eexists.
Qed.

Lemma lit_scalar x : Forall (fun c => Utf8.scalar c = true) (lit x).
Proof.
  unfold lit. induction x as [|a x IH]; simpl; constructor; [|exact IH].
  apply scalar_intro. left. unfold chr.
  pose proof (N_ascii_bounded a). lia.
Qed.

Lemma frame_scalar s :
  Forall (fun c => Utf8.scalar c = true) s ->
  Forall (fun c => Utf8.scalar c = true) (frame s).
Proof.
  intros Hs. unfold frame, decimal.
  repeat (apply Forall_app; split); auto using lit_scalar.
Qed.

(** The digest of the framed text is defined for every decoded text. *)
Lemma framed_digest_defined contents contents_str :
  Utf8.decode contents = Some contents_str ->
  exists data, Utf8.encode (frame contents_str) = Some data
               /\ framed_digest contents_str
                  = Some (Sha1.hexdigest (Sha1.sha1 data)).
Proof.
  intros Hd. destruct (encode_scalar (frame contents_str)) as [data Hdata].
  { apply frame_scalar. eapply decode_scalar; eauto. }
  exists data. split; [exact Hdata|]. unfold framed_digest. now rewrite Hdata.
Qed.

(** ** Authority: the claims *)

Section AuthorityClaims.

Context `{Externals}.

(** C4. An authority whose number of colons is not one is rejected with
    the failure about a malformed authority, which repeats the whole
    authority: nothing is truncated. *)
Theorem wrong_colon_count_rejected auth :
  count (chr ":") auth <> 1%nat ->
  validate_registry_uri_authority auth
  = Raise (EthPMValidationError (Msg.malformed_authority auth))
  /\ has_kind MalformedAuthority
       (EthPMValidationError (Msg.malformed_authority auth))
  /\ contains (Msg.malformed_authority auth) auth.
Proof.
  intros Hc. split; [|split].
  - now apply authority_not_two_parts.
  - now exists auth.
  - exists [], (lit " is not a valid registry URI authority. "
                 ++ lit "Please try again with a valid registry URI.").
    reflexivity.
Qed.

(** C1. When the identity is accepted and the text of the chain id is
    not accepted by [to_int], the exception of [to_int] leaves the
    validator as it is: the failure is a built-in exception, not a
    validation error, and so not the failure about an unsupported chain
    id. *)
Theorem unparsable_chain_id_escapes auth address chain_id b :
  split (chr ":") auth = [address; chain_id] ->
  is_ens_domain address || is_checksum_address address = true ->
  to_int chain_id = inl b ->
  validate_registry_uri_authority auth = Raise (Builtin b)
  /\ ~ is_validation_error (Builtin b)
  /\ ~ has_kind UnsupportedChainID (Builtin b).
Proof.
  intros Hs Hid Hn. split; [|split].
  - rewrite (authority_chain_id _ _ _ Hs Hid), Hn. reflexivity.
  - intros [m Hm]. discriminate.
  - intros [c Hc]. discriminate.
Qed.

End AuthorityClaims.

(** ** Contents of a blob URI *)

Section Blob.

Context `{Externals}.

Lemma blob_uri_unparsed contents blob_uri b :
  urlparse blob_uri = inl b ->
  validate_blob_uri_contents contents blob_uri = Raise (Builtin b).
Proof. intros Hp. unfold validate_blob_uri_contents. now rewrite Hp. Qed.

(** With a parsed URI and decoded contents, the validation is the
    comparison of the two digests. *)
Lemma blob_compare contents blob_uri p contents_str d :
  urlparse blob_uri = inr p ->
  Utf8.decode contents = Some contents_str ->
  framed_digest contents_str = Some d ->
  validate_blob_uri_contents contents blob_uri
  = let blob_hash := last_piece (split (chr "/") (path p)) in
    if negb (str_eqb d blob_hash)
    then Raise (EthPMValidationError (Msg.hash_mismatch blob_uri blob_hash))
    else Return tt.
Proof.
  intros Hp Hd Hf. unfold validate_blob_uri_contents, to_text, to_bytes.
  rewrite Hp, Hd. run.
  change (lit "blob " ++ decimal (N.of_nat (length contents_str)) ++ [0]
            ++ contents_str) with (frame contents_str).
  unfold framed_digest in Hf.
  destruct (Utf8.encode (frame contents_str)) as [data|]; [|discriminate].
  injection Hf as <-. run. reflexivity.
Qed.

(** C2, as the code has it. When the digest of the framed contents
    differs from the last segment of the path of the URI, the validation
    fails with the failure about the hash of the contents; the message
    holds the digest expected by the URI and the URI. *)
Theorem hash_mismatch_reported contents blob_uri p contents_str d :
  urlparse blob_uri = inr p ->
  Utf8.decode contents = Some contents_str ->
  framed_digest contents_str = Some d ->
  d <> last_piece (split (chr "/") (path p)) ->
  let blob_hash := last_piece (split (chr "/") (path p)) in
  let msg := Msg.hash_mismatch blob_uri blob_hash in
  validate_blob_uri_contents contents blob_uri
  = Raise (EthPMValidationError msg)
  /\ has_kind ContentHashMismatch (EthPMValidationError msg)
  /\ contains msg blob_hash
  /\ contains msg blob_uri.
Proof.
  intros Hp Hd Hf Hne blob_hash msg. split; [|split; [|split]].
  - rewrite (blob_compare _ _ _ _ _ Hp Hd Hf). cbv zeta.
    apply str_eqb_neq in Hne. now rewrite Hne.
  - now exists blob_uri, blob_hash.
  - unfold msg, Msg.hash_mismatch. auto with contains.
  - unfold msg, Msg.hash_mismatch. auto with contains.
Qed.

(** C3, as the code has it. When the contents are not UTF-8 text and the
    URI is parsed, the validation fails with the exception of the
    decoder, [UnicodeDecodeError], which is a built-in exception and not
    a validation error. *)
Theorem undecodable_contents_escape contents blob_uri p :
  urlparse blob_uri = inr p ->
  Utf8.decode contents = None ->
  validate_blob_uri_contents contents blob_uri
  = Raise (Builtin UnicodeDecodeError)
  /\ ~ is_validation_error (Builtin UnicodeDecodeError).
Proof.
  intros Hp Hd. split.
  - unfold validate_blob_uri_contents, to_text. rewrite Hp, Hd. reflexivity.
  - intros [m Hm]. discriminate.
Qed.

(** C8. For contents that are UTF-8 text and a URI that is parsed, the
    digest of the framing ["blob " + length in characters + NUL + text]
    is defined; the validation succeeds when the last segment of the
    path is that digest and fails with the failure about the hash of the
    contents when it is not. *)
Theorem blob_round_trip contents blob_uri p contents_str :
  urlparse blob_uri = inr p ->
  Utf8.decode contents = Some contents_str ->
  exists data,
    Utf8.encode
      (lit "blob " ++ decimal (N.of_nat (length contents_str)) ++ [0]
         ++ contents_str) = Some data
    /\ let d := Sha1.hexdigest (Sha1.sha1 data) in
       let blob_hash := last_piece (split (chr "/") (path p)) in
       (blob_hash = d ->
        validate_blob_uri_contents contents blob_uri = Return tt)
       /\ (blob_hash <> d ->
           validate_blob_uri_contents contents blob_uri
           = Raise (EthPMValidationError
                      (Msg.hash_mismatch blob_uri blob_hash))
           /\ has_kind ContentHashMismatch
                (EthPMValidationError
                   (Msg.hash_mismatch blob_uri blob_hash))).
Proof.
  intros Hp Hd.
  destruct (framed_digest_defined _ _ Hd) as (data & Hdata & Hf).
  exists data. split; [exact Hdata|]. cbv zeta.
  rewrite (blob_compare _ _ _ _ _ Hp Hd Hf). cbv zeta. split.
  - intros ->. assert (Hq : str_eqb (Sha1.hexdigest (Sha1.sha1 data))
                                 (Sha1.hexdigest (Sha1.sha1 data)) = true)
      by now apply str_eqb_eq.
    now rewrite Hq.
  - intros Hne. split; [|now eexists _, _].
    assert (Hq : str_eqb (Sha1.hexdigest (Sha1.sha1 data))
                   (last_piece (split (chr "/") (path p))) = false)
      by (apply str_eqb_neq; congruence).
    now rewrite Hq.
Qed.

End Blob.

(** ** Selection of the matching URI *)

Lemma filter_none {A} (f : A -> bool) l :
  Forall (fun x => f x <> true) l -> List.filter f l = [].
Proof.
  induction 1 as [|x l Hx _ IH]; simpl; [reflexivity|].
  destruct (f x); [contradiction|exact IH].
Qed.

Lemma join_contains sep l x : In x l -> contains (join sep l) x.
Proof.
  induction l as [|y l IH]; [intros []|].
  intros [->|Hin].
  - destruct l; simpl; auto with contains.
  - destruct l as [|z l]; [destruct Hin|].
    change (join sep (y :: z :: l)) with (y ++ sep ++ join sep (z :: l)).
    auto with contains.
Qed.

Section Matching.

Context `{Externals}.

Lemma too_many_lists_all (matching_uris : list str) :
  contains (Msg.too_many_matching matching_uris)
    (decimal (N.of_nat (length matching_uris)))
  /\ forall uri, In uri matching_uris ->
                 contains (Msg.too_many_matching matching_uris) (repr uri).
Proof.
  unfold Msg.too_many_matching, repr_list. split.
  - auto with contains.
  - intros uri Hin. do 3 apply contains_app_r. apply contains_app_l.
    apply contains_app_r, contains_app_l, join_contains.
    now apply in_map.
Qed.

(** C7. The candidates that satisfy the chain-match predicate decide the
    result: when exactly one candidate does, it is returned; when none
    does, the failure is the one about no matching URI; when two or more
    do, the failure is the one about too many matching URIs, its message
    holds the number of matching candidates and each of them, and no
    candidate is returned. *)
Theorem unique_match_selected (all_blockchain_uris : list str) (w3 : Web3) :
  let matches uri := check_if_chain_matches_chain_uri w3 uri = true in
  let matching_uris :=
    List.filter (check_if_chain_matches_chain_uri w3) all_blockchain_uris in
  (forall l1 uri l2,
      all_blockchain_uris = l1 ++ uri :: l2 ->
      matches uri ->
      Forall (fun x => ~ matches x) l1 ->
      Forall (fun x => ~ matches x) l2 ->
      validate_single_matching_uri all_blockchain_uris w3 = Return uri)
  /\ (Forall (fun x => ~ matches x) all_blockchain_uris ->
      validate_single_matching_uri all_blockchain_uris w3
      = Raise (EthPMValidationError Msg.no_matching_uri))
  /\ (forall l1 u l2 v l3,
         all_blockchain_uris = l1 ++ u :: l2 ++ v :: l3 ->
         matches u ->
         matches v ->
         let msg := Msg.too_many_matching matching_uris in
         validate_single_matching_uri all_blockchain_uris w3
         = Raise (EthPMValidationError msg)
         /\ has_kind AmbiguousMatch (EthPMValidationError msg)
         /\ (2 <= length matching_uris)%nat
         /\ contains msg (decimal (N.of_nat (length matching_uris)))
         /\ forall uri, In uri all_blockchain_uris -> matches uri ->
                        contains msg (repr uri)).
Proof.
  intros matches matching_uris. unfold validate_single_matching_uri.
  fold matching_uris. split; [|split].
  - intros l1 uri l2 -> Hu H1 H2. unfold matching_uris.
    rewrite List.filter_app. simpl. rewrite Hu.
    now rewrite (filter_none _ _ H1), (filter_none _ _ H2).
  - intros Hnone. unfold matching_uris. now rewrite (filter_none _ _ Hnone).
  - intros l1 u l2 v l3 Hall Hu Hv.
    assert (Hlen : (2 <= length matching_uris)%nat).
    { unfold matching_uris. rewrite Hall, List.filter_app. simpl. rewrite Hu.
      rewrite List.filter_app. simpl. rewrite Hv.
      rewrite length_app. simpl. rewrite length_app. simpl. lia. }
    assert (Hin : forall uri, In uri all_blockchain_uris -> matches uri ->
                              In uri matching_uris).
    { intros uri Hi Hm. apply filter_In. now split. }
    destruct (too_many_lists_all matching_uris) as [Hcount Heach].
    clearbody matching_uris. repeat split; auto.
    + destruct matching_uris as [|a [|b m]]; simpl in Hlen; try lia.
      reflexivity.
    + now exists matching_uris.
Qed.

End Matching.

(** ** The validation middleware *)

Section MiddlewareClaims.

Context `{Externals}.

(** C9. [check_extradata_length] returns its argument or raises: a
    returned value is the argument; [ValidationError] is raised exactly
    for a [str], [int] or [bytes] whose bytes, as [HexBytes] gives them,
    are more than 32; a value of another type is returned without
    looking at its length. *)
Theorem check_extradata_length_identity (val : pyval) :
  (forall v, check_extradata_length val = Return v -> v = val)
  /\ ((exists msg, check_extradata_length val = Raise (ValidationError msg))
      <-> is_str_int_bytes val = true
          /\ exists b, HexBytes val = inr b
                       /\ (MAX_EXTRADATA_LENGTH < length b)%nat)
  /\ (is_str_int_bytes val = false ->
      check_extradata_length val = Return val).
Proof.
  unfold check_extradata_length.
  destruct (is_str_int_bytes val) eqn:Ht; simpl negb; cbv iota.
  - destruct (HexBytes val) as [e|b] eqn:Hb; run.
    + split; [discriminate|]. split; [|discriminate].
      split; [intros [m Hm]|intros [_ (b & Hb' & _)]]; discriminate.
    + destruct (Nat.ltb_spec MAX_EXTRADATA_LENGTH (length b)) as [Hl|Hl].
      * split; [discriminate|]. split; [|discriminate].
        split; [intros _|intros _]; eauto.
      * split; [now intros v [= <-]|]. split; [|discriminate].
        split; [intros [m Hm]; discriminate|].
        intros [_ (b' & [= <-] & Hl')]. lia.
  - split; [now intros v [= <-]|]. split; [|reflexivity].
    split; [intros [m Hm]|intros [Hf _]]; discriminate.
Qed.

End MiddlewareClaims.

(** C10. [transaction_normalizer] removes the key [chainId] and nothing
    else: every other key keeps its value, and a mapping without the key
    is returned as it is. *)
Theorem transaction_normalizer_frame (transaction : gmap str pyval) :
  (forall key, key <> lit "chainId" ->
               transaction_normalizer transaction !! key = transaction !! key)
  /\ transaction_normalizer transaction !! lit "chainId" = None
  /\ (transaction !! lit "chainId" = None ->
      transaction_normalizer transaction = transaction).
Proof.
  unfold transaction_normalizer. split; [|split].
  - intros key Hk. now apply lookup_delete_ne.
  - apply lookup_delete_eq.
  - apply delete_id.
Qed.

(* ================================================================= *)
(** * Evaluation on concrete inputs *)

Section Concrete.

#[local] Existing Instance Model.model.
Import Sample.

(** The hash function on its standard test vector, and on the framing of
    [hello]. *)
Example sha1_abc :
  Sha1.hexdigest (Sha1.sha1 (blit "abc"))
  = lit "a9993e364706816aba3e25717850c26c9cd0d89d".
Proof. vm_compute. reflexivity. Qed.

Example frame_hello : frame (lit "hello") = lit "blob 5" ++ [0] ++ lit "hello".
Proof. vm_compute. reflexivity. Qed.

Example framed_digest_hello : framed_digest (lit "hello") = Some hello_digest.
Proof. vm_compute. reflexivity. Qed.

Example sample_uris_parsed :
  urlparse hello_uri = inr (blob_parsed hello_digest)
  /\ urlparse zero_uri = inr (blob_parsed zero_digest)
  /\ urlparse empty_path_uri = inr (empty_path_parsed [])
  /\ urlparse empty_path_version_uri
     = inr (empty_path_parsed (lit "version=1.0.0"))
  /\ urlparse two_colons_uri = inr two_colons_parsed.
Proof. repeat split; vm_compute; reflexivity. Qed.

Example registry_uri_accepted :
  validate_registry_uri
    (lit "erc1319://" ++ address ++ lit ":1/mypackage?version=1.0.0")
  = Return tt.
Proof. vm_compute. reflexivity. Qed.

Example authority_chain_1 :
  validate_registry_uri_authority (address ++ lit ":1") = Return tt.
Proof. vm_compute. reflexivity. Qed.

Example authority_chain_999 :
  validate_registry_uri_authority (address ++ lit ":999")
  = Raise (EthPMValidationError (Msg.unsupported_chain_id (lit "999"))).
Proof. vm_compute. reflexivity. Qed.

(** C4 on the two authorities of the specification. *)
Lemma wrong_colon_count_rejected_witness :
  (count (chr ":") (lit "noColon") <> 1%nat
   /\ validate_registry_uri_authority (lit "noColon")
      = Raise (EthPMValidationError (Msg.malformed_authority (lit "noColon"))))
  /\ (count (chr ":") (lit "0xAbC:1:2") <> 1%nat
      /\ validate_registry_uri_authority (lit "0xAbC:1:2")
         = Raise (EthPMValidationError
                    (Msg.malformed_authority (lit "0xAbC:1:2")))).
Proof.
  assert (H0 : count (chr ":") (lit "noColon") <> 1%nat)
    by (vm_compute; discriminate).
  assert (H2 : count (chr ":") (lit "0xAbC:1:2") <> 1%nat)
    by (vm_compute; discriminate).
  split; (split; [assumption|]).
  - exact (proj1 (wrong_colon_count_rejected (lit "noColon") H0)).
  - exact (proj1 (wrong_colon_count_rejected (lit "0xAbC:1:2") H2)).
Defined.

(** C1 on the authority [foo.eth:abc]. *)
Lemma unparsable_chain_id_escapes_witness :
  to_int (lit "abc") = inl ValueError
  /\ validate_registry_uri_authority (lit "foo.eth:abc")
     = Raise (Builtin ValueError)
  /\ ~ is_validation_error (Builtin ValueError).
Proof.
  assert (Hs : split (chr ":") (lit "foo.eth:abc") = [lit "foo.eth"; lit "abc"])
    by (vm_compute; reflexivity).
  assert (Hid : is_ens_domain (lit "foo.eth")
                || is_checksum_address (lit "foo.eth") = true)
    by (vm_compute; reflexivity).
  assert (Hn : to_int (lit "abc") = inl ValueError)
    by (vm_compute; reflexivity).
  destruct (unparsable_chain_id_escapes _ _ _ _ Hs Hid Hn) as (Hv & Hne & _).
  split; [exact Hn|]. split; [exact Hv|exact Hne].
Defined.

(** X25 on a URI whose authority has two colons, whose path is [/] and
    which has a query. *)
Lemma authority_error_surfaces_first_witness :
  validate_registry_uri two_colons_uri
  = Raise (EthPMValidationError (Msg.malformed_authority (lit "foo.eth:1:2")))
  /\ ~ has_kind MissingPackageName
         (EthPMValidationError (Msg.malformed_authority (lit "foo.eth:1:2"))).
Proof.
  assert (Hp : urlparse two_colons_uri = inr two_colons_parsed)
    by (vm_compute; reflexivity).
  destruct (authority_error_surfaces_first two_colons_uri _
              (EthPMValidationError
                 (Msg.malformed_authority (lit "foo.eth:1:2"))) Hp)
    as (Hv & Hk & _).
  - vm_compute. reflexivity.
  - vm_compute. reflexivity.
  - split; [exact Hv|exact Hk].
Defined.

(** C6 on the two URIs of the specification. *)
Lemma empty_package_name_witness :
  validate_registry_uri empty_path_uri = Return tt
  /\ validate_registry_uri empty_path_version_uri
     = Raise (EthPMValidationError Msg.missing_package_name).
Proof.
  split.
  - eapply (empty_package_name empty_path_uri (empty_path_parsed []));
      vm_compute; reflexivity.
  - eapply (empty_package_name empty_path_version_uri
              (empty_path_parsed (lit "version=1.0.0")));
      vm_compute; try reflexivity. discriminate.
Defined.

(** C2, as stated, fails on the contents [hello] and a URI that ends
    with another digest: the validation fails, and the digest computed
    from the contents is not in the message. *)
Lemma computed_digest_not_in_message :
  Utf8.decode (blit "hello") = Some (lit "hello")
  /\ framed_digest (lit "hello") = Some hello_digest
  /\ validate_blob_uri_contents (blit "hello") zero_uri
     = Raise (EthPMValidationError (Msg.hash_mismatch zero_uri zero_digest))
  /\ ~ contains (Msg.hash_mismatch zero_uri zero_digest) hello_digest.
Proof.
  split; [vm_compute; reflexivity|]. split; [vm_compute; reflexivity|].
  split; [vm_compute; reflexivity|].
  intros Hc. apply containsb_spec in Hc. vm_compute in Hc. discriminate.
Qed.

(** C2, as the code has it, on the same input. *)
Lemma hash_mismatch_reported_witness :
  validate_blob_uri_contents (blit "hello") zero_uri
  = Raise (EthPMValidationError (Msg.hash_mismatch zero_uri zero_digest))
  /\ contains (Msg.hash_mismatch zero_uri zero_digest) zero_digest
  /\ contains (Msg.hash_mismatch zero_uri zero_digest) zero_uri.
Proof.
  assert (Hp : urlparse zero_uri = inr (blob_parsed zero_digest))
    by (vm_compute; reflexivity).
  assert (Hd : Utf8.decode (blit "hello") = Some (lit "hello"))
    by (vm_compute; reflexivity).
  assert (Hf : framed_digest (lit "hello") = Some hello_digest)
    by (vm_compute; reflexivity).
  destruct (hash_mismatch_reported (blit "hello") zero_uri _ _ _ Hp Hd Hf)
    as (Hv & _ & Hh & Hu).
  - vm_compute. discriminate.
  - split; [exact Hv|]. split; [exact Hh|exact Hu].
Defined.

(** C3, as stated, fails on the single byte [0xff]: the exception is the
    one of the decoder, not a validation error. *)
Lemma undecodable_contents_not_validation_error :
  Utf8.decode [xff] = None
  /\ validate_blob_uri_contents [xff] hello_uri
     = Raise (Builtin UnicodeDecodeError)
  /\ ~ is_validation_error (Builtin UnicodeDecodeError).
Proof.
  split; [vm_compute; reflexivity|]. split; [vm_compute; reflexivity|].
  intros [m Hm]. discriminate.
Qed.

(** C3, as the code has it, on the same input. *)
Lemma undecodable_contents_escape_witness :
  validate_blob_uri_contents [xff] hello_uri
  = Raise (Builtin UnicodeDecodeError).
Proof.
  eapply (undecodable_contents_escape [xff] hello_uri).
  - vm_compute. reflexivity.
  - vm_compute. reflexivity.
Defined.

(** C8 on the contents [hello]: the URI that ends with the digest of the
    framing is accepted, and the same URI is rejected for [hellp]. *)
Lemma blob_round_trip_witness :
  validate_blob_uri_contents (blit "hello") hello_uri = Return tt
  /\ validate_blob_uri_contents (blit "hellp") hello_uri
     = Raise (EthPMValidationError (Msg.hash_mismatch hello_uri hello_digest)).
Proof.
  assert (Hp : urlparse hello_uri = inr (blob_parsed hello_digest))
    by (vm_compute; reflexivity).
  split.
  - destruct (blob_round_trip (blit "hello") hello_uri _ (lit "hello") Hp)
      as (data & Hdata & Hok & _); [vm_compute; reflexivity|].
    apply Hok. vm_compute in Hdata. injection Hdata as <-.
    vm_compute. reflexivity.
  - destruct (blob_round_trip (blit "hellp") hello_uri _ (lit "hellp") Hp)
      as (data & Hdata & _ & Hbad); [vm_compute; reflexivity|].
    apply Hbad. vm_compute in Hdata. injection Hdata as <-.
    vm_compute. discriminate.
Defined.

(** C7 on three candidates, with one, no and two matching candidates. *)
Lemma unique_match_selected_witness :
  validate_single_matching_uri [a1; b2; a3] (lit "bb") = Return b2
  /\ validate_single_matching_uri [a1; b2; a3] (lit "cc")
     = Raise (EthPMValidationError Msg.no_matching_uri)
  /\ validate_single_matching_uri [a1; b2; a3] (lit "aa")
     = Raise (EthPMValidationError (Msg.too_many_matching [a1; a3]))
  /\ contains (Msg.too_many_matching [a1; a3]) (repr a1)
  /\ contains (Msg.too_many_matching [a1; a3]) (repr a3)
  /\ contains (Msg.too_many_matching [a1; a3]) (lit "2").
Proof.
  assert (Ha1 : check_if_chain_matches_chain_uri (lit "aa") a1 = true)
    by (vm_compute; reflexivity).
  assert (Ha3 : check_if_chain_matches_chain_uri (lit "aa") a3 = true)
    by (vm_compute; reflexivity).
  split; [|split].
  - apply (proj1 (unique_match_selected (H:=Model.model) [a1; b2; a3] (lit "bb"))
             [a1] b2 [a3]).
    + reflexivity.
    + vm_compute. reflexivity.
    + repeat constructor. vm_compute. discriminate.
    + repeat constructor. vm_compute. discriminate.
  - apply (proj1 (proj2 (unique_match_selected (H:=Model.model)
                           [a1; b2; a3] (lit "cc")))).
    repeat constructor; vm_compute; discriminate.
  - destruct (proj2 (proj2 (unique_match_selected (H:=Model.model)
                              [a1; b2; a3] (lit "aa")))
                [] a1 [b2] a3 [] eq_refl Ha1 Ha3)
      as (Hv & _ & _ & Hn & Hall).
    split; [exact Hv|]. split; [|split].
    + apply (Hall a1); [now left|exact Ha1].
    + apply (Hall a3); [now right; right; left|exact Ha3].
    + exact Hn.
Defined.

(** C9 on a hexadecimal string of 33 bytes, on one of 32 bytes and on a
    list. *)
Lemma check_extradata_length_identity_witness :
  (exists msg,
      check_extradata_length long_extradata = Raise (ValidationError msg))
  /\ check_extradata_length short_extradata = Return short_extradata
  /\ check_extradata_length (PyList [PyInt 1]) = Return (PyList [PyInt 1]).
Proof.
  split; [|split].
  - apply (proj1 (proj2 (check_extradata_length_identity long_extradata))).
    split; [reflexivity|]. eexists. split; [vm_compute; reflexivity|].
    vm_compute. lia.
  - destruct (check_extradata_length short_extradata) as [v|e] eqn:Hc.
    + f_equal.
      apply (proj1 (check_extradata_length_identity short_extradata) v Hc).
    + vm_compute in Hc. discriminate.
  - apply (proj2 (proj2 (check_extradata_length_identity (PyList [PyInt 1])))).
    reflexivity.
Defined.

(** C10 on a transaction with a chain id and on one without. *)
Lemma transaction_normalizer_frame_witness :
  transaction_normalizer with_chain_id !! lit "value" = Some (PyInt 10)
  /\ transaction_normalizer with_chain_id !! lit "chainId" = None
  /\ transaction_normalizer value_only = value_only.
Proof.
  assert (Hne : lit "value" <> lit "chainId") by (vm_compute; discriminate).
  destruct (transaction_normalizer_frame with_chain_id) as (Hother & Hgone & _).
  split; [|split].
  - rewrite (Hother _ Hne). unfold with_chain_id, value_only.
    rewrite lookup_insert_ne by congruence. apply lookup_insert_eq.
  - exact Hgone.
  - apply (proj2 (proj2 (transaction_normalizer_frame value_only))).
    unfold value_only.
    rewrite lookup_insert_ne by congruence. apply lookup_empty.
Defined.

End Concrete.


(* ================================================================= *)
(** * Further properties of ethpm/validation/uri.py *)

Section AuthorityMore.

Context `{Externals}.

(** X1. The authority validator accepts exactly the authorities made of
    two parts around one colon, whose first part is an ENS domain or a
    checksummed address and whose second part is read by [to_int] as a
    supported chain id. *)
Theorem authority_accepted_iff auth :
  validate_registry_uri_authority auth = Return tt
  <-> exists address chain_id n,
        split (chr ":") auth = [address; chain_id]
        /\ is_ens_domain address || is_checksum_address address = true
        /\ to_int chain_id = inr n
        /\ is_supported_chain_id n = true.
Proof.
  split.
  - unfold validate_registry_uri_authority.
    destruct (split (chr ":") auth) as [|a [|b [|c l]]] eqn:Hs;
      try discriminate.
    rewrite <- negb_orb.
    destruct (is_ens_domain a || is_checksum_address a) eqn:Hid;
      [|discriminate]. simpl negb. cbv iota.
    destruct (to_int b) as [e|n] eqn:Hn; run; [discriminate|].
    destruct (is_supported_chain_id n) eqn:Hsup; [|discriminate].
    intros _. now exists a, b, n.
  - intros (a & b & n & Hs & Hid & Hn & Hsup).
    eapply authority_accepted; eauto.
Qed.

(** X2. An identity that is neither an ENS domain nor a checksummed
    address is reported with the failure that names it, whatever the text
    of the chain id is: the chain id is not read before. *)
Theorem bad_identity_reported_first auth address chain_id :
  split (chr ":") auth = [address; chain_id] ->
  is_ens_domain address = false ->
  is_checksum_address address = false ->
  validate_registry_uri_authority auth
  = Raise (EthPMValidationError (Msg.invalid_identity address))
  /\ has_kind InvalidAuthorityIdentity
       (EthPMValidationError (Msg.invalid_identity address))
  /\ contains (Msg.invalid_identity address) address.
Proof.
  intros Hs He Hc. split; [|split].
  - eapply authority_bad_identity; eauto.
  - now exists address.
  - exists [], (lit " is not a valid registry address. "
                 ++ lit "Please try again with a valid registry URI.").
    reflexivity.
Qed.

(** X3. A chain id that [to_int] reads as an integer outside the
    supported ones is rejected with the failure about an unsupported chain
    id; the message repeats the text of the chain id and lists the
    supported ids. *)
Theorem unsupported_chain_id_rejected auth address chain_id n :
  split (chr ":") auth = [address; chain_id] ->
  is_ens_domain address || is_checksum_address address = true ->
  to_int chain_id = inr n ->
  is_supported_chain_id n = false ->
  validate_registry_uri_authority auth
  = Raise (EthPMValidationError (Msg.unsupported_chain_id chain_id))
  /\ has_kind UnsupportedChainID
       (EthPMValidationError (Msg.unsupported_chain_id chain_id))
  /\ contains (Msg.unsupported_chain_id chain_id) chain_id
  /\ contains (Msg.unsupported_chain_id chain_id)
       (lit "1 (mainnet), 3 (ropsten), 4 (rinkeby), 5 (goerli) and 42 (kovan)").
Proof.
  intros Hs Hid Hn Hsup. split; [|split].
  - eapply authority_unsupported; eauto.
  - now exists chain_id.
  - apply unsupported_message_enumerates.
Qed.

End AuthorityMore.

Section RegistryMore.

Context `{Externals}.

(** X4. A URI whose scheme is not the registry scheme is rejected with the
    failure about the scheme, which names the scheme, whatever its
    authority, path and query are. *)
Theorem wrong_scheme_rejected uri p :
  urlparse uri = inr p ->
  scheme p <> REGISTRY_URI_SCHEME ->
  validate_registry_uri uri
  = Raise (EthPMValidationError (Msg.invalid_scheme (scheme p)))
  /\ has_kind InvalidURIScheme
       (EthPMValidationError (Msg.invalid_scheme (scheme p)))
  /\ contains (Msg.invalid_scheme (scheme p)) (scheme p).
Proof.
  intros Hp Hs. split; [|split].
  - now apply registry_uri_bad_scheme.
  - now exists (scheme p).
  - exists [], (lit " is not a valid registry URI scheme."). reflexivity.
Qed.

(** The checks after the authority, on the name and the query. *)
Lemma registry_uri_after_authority uri p :
  urlparse uri = inr p ->
  scheme p = REGISTRY_URI_SCHEME ->
  validate_registry_uri_authority (netloc p) = Return tt ->
  validate_registry_uri uri
  = let pkg_name := strip (chr "/") (path p) in
    (if truthy pkg_name then validate_package_name pkg_name
     else Return tt);;
    (if negb (truthy pkg_name) && truthy (query p)
     then Raise (EthPMValidationError Msg.missing_package_name)
     else Return tt);;
    if truthy (query p) then validate_registry_uri_version (query p)
    else Return tt.
Proof.
  intros Hp Hs Ha. rewrite (registry_uri_after_scheme _ _ Hp Hs), Ha.
  reflexivity.
Qed.

(** X5. [validate_registry_uri] accepts exactly the URIs that are parsed,
    have the registry scheme and an accepted authority, whose package
    name, when there is one, is accepted by the package-name validator,
    which have no query when there is no package name, and whose query,
    when there is one, has a [version] key. *)
Theorem registry_uri_accepted_iff uri :
  validate_registry_uri uri = Return tt
  <-> exists p,
        urlparse uri = inr p
        /\ scheme p = REGISTRY_URI_SCHEME
        /\ validate_registry_uri_authority (netloc p) = Return tt
        /\ (strip (chr "/") (path p) <> [] ->
            validate_package_name (strip (chr "/") (path p)) = Return tt)
        /\ (strip (chr "/") (path p) = [] -> query p = [])
        /\ (query p <> [] -> is_Some (parse_qs (query p) !! lit "version")).
Proof.
  split.
  - intros Hv. destruct (urlparse uri) as [b|p] eqn:Hp.
    { unfold validate_registry_uri in Hv. rewrite Hp in Hv. discriminate. }
    exists p. split; [reflexivity|].
    destruct (decide (scheme p = REGISTRY_URI_SCHEME)) as [Hs|Hs].
    2:{ rewrite (registry_uri_bad_scheme _ _ Hp Hs) in Hv. discriminate. }
    split; [exact Hs|].
    destruct (validate_registry_uri_authority (netloc p)) as [[]|e] eqn:Ha.
    2:{ rewrite (registry_uri_after_scheme _ _ Hp Hs), Ha in Hv.
        discriminate. }
    split; [reflexivity|].
    rewrite (registry_uri_after_authority _ _ Hp Hs Ha) in Hv.
    cbv zeta in Hv. unfold validate_registry_uri_version in Hv.
    destruct (strip (chr "/") (path p)) as [|c name] eqn:Hn;
      destruct (query p) as [|q qs] eqn:Hq; simpl truthy in Hv;
      cbv iota in Hv; run_in Hv.
    + repeat split; congruence.
    + discriminate.
    + destruct (validate_package_name (c :: name)) as [[]|e] eqn:Hname;
        [|discriminate]. repeat split; congruence.
    + destruct (validate_package_name (c :: name)) as [[]|e] eqn:Hname;
        [|discriminate]. run_in Hv. simpl in Hv.
      destruct (parse_qs (q :: qs) !! lit "version") eqn:Hk; [|discriminate].
      repeat split; try congruence. intros _. now eexists.
  - intros (p & Hp & Hs & Ha & Hname & Hempty & Hver).
    rewrite (registry_uri_after_authority _ _ Hp Hs Ha). cbv zeta.
    unfold validate_registry_uri_version.
    destruct (strip (chr "/") (path p)) as [|c name] eqn:Hn.
    + rewrite (Hempty eq_refl). reflexivity.
    + simpl truthy. cbv iota. rewrite Hname by discriminate. run.
      simpl. destruct (query p) as [|q qs]; [reflexivity|]. simpl.
      destruct Hver as [v ->]; [discriminate|reflexivity].
Qed.

(** X6. With the registry scheme and an accepted authority, a failure of
    the package-name validator on the stripped path is the failure of
    [validate_registry_uri], unchanged, whatever the query is. *)
Theorem package_name_failure_surfaces uri p e :
  urlparse uri = inr p ->
  scheme p = REGISTRY_URI_SCHEME ->
  validate_registry_uri_authority (netloc p) = Return tt ->
  strip (chr "/") (path p) <> [] ->
  validate_package_name (strip (chr "/") (path p)) = Raise e ->
  validate_registry_uri uri = Raise e.
Proof.
  intros Hp Hs Ha Hn He.
  rewrite (registry_uri_after_authority _ _ Hp Hs Ha). cbv zeta.
  apply truthy_true in Hn. rewrite Hn, He. reflexivity.
Qed.

(** X7. With the registry scheme, an accepted authority and an accepted
    package name, a query without a [version] key is rejected with the
    failure about the version, which repeats the query. *)
Theorem missing_version_key_rejected uri p :
  urlparse uri = inr p ->
  scheme p = REGISTRY_URI_SCHEME ->
  validate_registry_uri_authority (netloc p) = Return tt ->
  strip (chr "/") (path p) <> [] ->
  validate_package_name (strip (chr "/") (path p)) = Return tt ->
  query p <> [] ->
  parse_qs (query p) !! lit "version" = None ->
  validate_registry_uri uri
  = Raise (EthPMValidationError (Msg.missing_version_key (query p)))
  /\ has_kind MissingVersionKey
       (EthPMValidationError (Msg.missing_version_key (query p)))
  /\ contains (Msg.missing_version_key (query p)) (query p).
Proof.
  intros Hp Hs Ha Hn Hname Hq Hk. split; [|split].
  - rewrite (registry_uri_after_authority _ _ Hp Hs Ha). cbv zeta.
    apply truthy_true in Hn, Hq. rewrite Hn, Hname, Hq. run. simpl.
    unfold validate_registry_uri_version. now rewrite Hk.
  - now exists (query p).
  - exists [], (lit " is not a correctly formatted version param.").
    reflexivity.
Qed.

(** X8. Every failure of [validate_registry_uri] is one of six: the
    exception of [urlparse], the failure about the scheme, a failure of
    the authority validator, a failure of the package-name validator, the
    failure about a version without a package name, or the failure about
    the version. *)
Theorem registry_uri_failure_cases uri e :
  validate_registry_uri uri = Raise e ->
  (exists b, urlparse uri = inl b /\ e = Builtin b)
  \/ exists p,
       urlparse uri = inr p
       /\ (has_kind InvalidURIScheme e
           \/ validate_registry_uri_authority (netloc p) = Raise e
           \/ validate_package_name (strip (chr "/") (path p)) = Raise e
           \/ has_kind MissingPackageName e
           \/ has_kind MissingVersionKey e).
Proof.
  intros Hv. destruct (urlparse uri) as [b|p] eqn:Hp.
  { left. exists b. split; [reflexivity|].
    unfold validate_registry_uri in Hv. rewrite Hp in Hv.
    now injection Hv as <-. }
  right. exists p. split; [reflexivity|].
  destruct (decide (scheme p = REGISTRY_URI_SCHEME)) as [Hs|Hs].
  2:{ rewrite (registry_uri_bad_scheme _ _ Hp Hs) in Hv.
      injection Hv as <-. left. now exists (scheme p). }
  destruct (validate_registry_uri_authority (netloc p)) as [[]|e'] eqn:Ha.
  2:{ rewrite (registry_uri_after_scheme _ _ Hp Hs), Ha in Hv.
      injection Hv as <-. right; left. reflexivity. }
  rewrite (registry_uri_after_authority _ _ Hp Hs Ha) in Hv.
  cbv zeta in Hv. unfold validate_registry_uri_version in Hv.
  destruct (strip (chr "/") (path p)) as [|c name] eqn:Hn;
    destruct (query p) as [|q qs] eqn:Hq; simpl truthy in Hv;
    cbv iota in Hv; run_in Hv.
  - discriminate.
  - injection Hv as <-. right; right; right; left. reflexivity.
  - destruct (validate_package_name (c :: name)) as [[]|e'] eqn:Hname;
      [discriminate|]. injection Hv as <-. right; right; left. reflexivity.
  - destruct (validate_package_name (c :: name)) as [[]|e'] eqn:Hname.
    + run_in Hv. simpl in Hv.
      destruct (parse_qs (q :: qs) !! lit "version"); [discriminate|].
      injection Hv as <-. right; right; right; right. now exists (q :: qs).
    + injection Hv as <-. right; right; left. reflexivity.
Qed.

End RegistryMore.

Lemma filter_permutation {A} (f : A -> bool) l l' :
  Permutation l l' -> Permutation (List.filter f l) (List.filter f l').
Proof.
  induction 1 as [|x l l' _ IH|x y l|l l' l'' _ IH1 _ IH2]; simpl.
  - constructor.
  - destruct (f x); [now constructor|exact IH].
  - destruct (f x), (f y); try reflexivity. apply perm_swap.
  - etransitivity; eauto.
Qed.

Section MatchingMore.

Context `{Externals}.

(** X9. A URI that [validate_single_matching_uri] returns is one of the
    candidates, satisfies the chain-match predicate, and is the only
    candidate that does: the matching candidates are that one URI, once. *)
Theorem returned_uri_is_the_only_match all_blockchain_uris w3 uri :
  validate_single_matching_uri all_blockchain_uris w3 = Return uri ->
  In uri all_blockchain_uris
  /\ check_if_chain_matches_chain_uri w3 uri = true
  /\ List.filter (check_if_chain_matches_chain_uri w3) all_blockchain_uris
     = [uri]
  /\ forall other, In other all_blockchain_uris ->
                   check_if_chain_matches_chain_uri w3 other = true ->
                   other = uri.
Proof.
  unfold validate_single_matching_uri. intros Hv.
  destruct (List.filter (check_if_chain_matches_chain_uri w3)
              all_blockchain_uris) as [|a [|b m]] eqn:Hf;
    try discriminate.
  injection Hv as <-.
  assert (Hin : In a (List.filter (check_if_chain_matches_chain_uri w3)
                        all_blockchain_uris)) by (rewrite Hf; now left).
  apply filter_In in Hin as [Hin Hm].
  repeat split; auto.
  intros other Ho Hmo.
  assert (Hio : In other [a]) by (rewrite <- Hf; apply filter_In; now split).
  destruct Hio as [->|[]]. reflexivity.
Qed.

(** X10. The order of the candidates does not change the outcome: a
    reordered list of candidates gives the same returned URI, and the same
    kind of failure. *)
Theorem selection_ignores_order l l' w3 :
  Permutation l l' ->
  (forall uri, validate_single_matching_uri l w3 = Return uri ->
               validate_single_matching_uri l' w3 = Return uri)
  /\ (forall e, validate_single_matching_uri l w3 = Raise e ->
                has_kind NoMatchingURI e ->
                validate_single_matching_uri l' w3 = Raise e)
  /\ (forall e, validate_single_matching_uri l w3 = Raise e ->
                has_kind AmbiguousMatch e ->
                exists e', validate_single_matching_uri l' w3 = Raise e'
                           /\ has_kind AmbiguousMatch e').
Proof.
  intros Hp.
  apply (filter_permutation (check_if_chain_matches_chain_uri w3)) in Hp.
  unfold validate_single_matching_uri.
  destruct (List.filter (check_if_chain_matches_chain_uri w3) l)
    as [|a [|b m]].
  - apply Permutation_nil in Hp. rewrite Hp.
    repeat split; try discriminate; auto.
    intros e [= <-] [m Hm]. discriminate.
  - apply Permutation_length_1_inv in Hp. rewrite Hp. simpl.
    repeat split; try discriminate; auto.
  - pose proof (Permutation_length Hp) as Hl.
    destruct (List.filter (check_if_chain_matches_chain_uri w3) l')
      as [|a' [|b' m']]; try discriminate.
    simpl. split; [discriminate|]. split.
    + intros e [= <-] Hk. simpl in Hk. discriminate.
    + intros e _ _. eexists. split; [reflexivity|]. now eexists.
Qed.

End MatchingMore.

(** ** Further properties of the blob validator *)

Lemma encode_app s t :
  Utf8.encode (s ++ t)
  = match Utf8.encode s, Utf8.encode t with
    | Some a, Some b => Some (a ++ b)
    | _, _ => None
    end.
Proof.
  induction s as [|c s IH]; simpl.
  - now destruct (Utf8.encode t).
  - destruct (Utf8.scalar c); [|reflexivity]. rewrite IH.
    destruct (Utf8.encode s), (Utf8.encode t); simpl; try reflexivity.
    now rewrite app_assoc.
Qed.

Lemma byte_of_to_N x : Utf8.byte_of_N (Byte.to_N x) = x.
Proof. unfold Utf8.byte_of_N. now rewrite Byte.of_to_N. Qed.

Lemma encode_char_1 b0 :
  b0 < 0x80 -> Utf8.encode_char b0 = [b0].
Proof.
  intros Hb. unfold Utf8.encode_char.
  apply N.ltb_lt in Hb. now rewrite Hb.
Qed.

Lemma encode_char_2 b0 b1 :
  0xC2 <= b0 <= 0xDF -> 0x80 <= b1 <= 0xBF ->
  Utf8.encode_char ((b0 mod 32) * 64 + b1 mod 64) = [b0; b1].
Proof.
  intros H0 H1. unfold Utf8.encode_char.
  set (c := (b0 mod 32) * 64 + b1 mod 64).
  assert (Hc : 0x80 <= c < 0x800) by (unfold c; lia).
  destruct (N.ltb_spec c 0x80); [lia|].
  destruct (N.ltb_spec c 0x800); [|lia].
  f_equal; [|f_equal]; unfold c; lia.
Qed.

Lemma encode_char_3 b0 b1 b2 :
  0xE0 <= b0 <= 0xEF ->
  (if b0 =? 0xE0 then 0xA0 else 0x80) <= b1 ->
  b1 <= 0xBF ->
  0x80 <= b2 <= 0xBF ->
  Utf8.encode_char ((b0 mod 16) * 4096 + (b1 mod 64) * 64 + b2 mod 64)
  = [b0; b1; b2].
Proof.
  intros H0 H1 H1' H2. unfold Utf8.encode_char.
  set (c := (b0 mod 16) * 4096 + (b1 mod 64) * 64 + b2 mod 64).
  assert (Hc : 0x800 <= c < 0x10000).
  { unfold c. destruct (N.eqb_spec b0 0xE0); lia. }
  assert (H1'' : 0x80 <= b1) by (destruct (b0 =? 0xE0); lia).
  destruct (N.ltb_spec c 0x80); [lia|].
  destruct (N.ltb_spec c 0x800); [lia|].
  destruct (N.ltb_spec c 0x10000); [|lia].
  f_equal; [|f_equal; [|f_equal]]; unfold c; lia.
Qed.

Lemma encode_char_4 b0 b1 b2 b3 :
  0xF0 <= b0 <= 0xF4 ->
  (if b0 =? 0xF0 then 0x90 else 0x80) <= b1 ->
  b1 <= 0xBF ->
  0x80 <= b2 <= 0xBF ->
  0x80 <= b3 <= 0xBF ->
  Utf8.encode_char ((b0 mod 8) * 262144 + (b1 mod 64) * 4096
                    + (b2 mod 64) * 64 + b3 mod 64)
  = [b0; b1; b2; b3].
Proof.
  intros H0 H1 H1' H2 H3. unfold Utf8.encode_char.
  set (c := (b0 mod 8) * 262144 + (b1 mod 64) * 4096
            + (b2 mod 64) * 64 + b3 mod 64).
  assert (Hc : 0x10000 <= c).
  { unfold c. destruct (N.eqb_spec b0 0xF0); lia. }
  assert (H1'' : 0x80 <= b1) by (destruct (b0 =? 0xF0); lia).
  destruct (N.ltb_spec c 0x80); [lia|].
  destruct (N.ltb_spec c 0x800); [lia|].
  destruct (N.ltb_spec c 0x10000); [lia|].
  f_equal; [|f_equal; [|f_equal; [|f_equal]]]; unfold c; lia.
Qed.

(** The accepted byte sequences, one character at a time. *)
Inductive decodes : list N -> str -> Prop :=
| decodes_nil : decodes [] []
| decodes_1 b0 l s :
    b0 < 0x80 -> decodes l s -> decodes (b0 :: l) (b0 :: s)
| decodes_2 b0 b1 l s :
    0xC2 <= b0 <= 0xDF -> 0x80 <= b1 <= 0xBF -> decodes l s ->
    decodes (b0 :: b1 :: l) (((b0 mod 32) * 64 + b1 mod 64) :: s)
| decodes_3 b0 b1 b2 l s :
    0xE0 <= b0 <= 0xEF ->
    (if b0 =? 0xE0 then 0xA0 else 0x80) <= b1 ->
    b1 <= (if b0 =? 0xED then 0x9F else 0xBF) ->
    0x80 <= b2 <= 0xBF -> decodes l s ->
    decodes (b0 :: b1 :: b2 :: l)
      (((b0 mod 16) * 4096 + (b1 mod 64) * 64 + b2 mod 64) :: s)
| decodes_4 b0 b1 b2 b3 l s :
    0xF0 <= b0 <= 0xF4 ->
    (if b0 =? 0xF0 then 0x90 else 0x80) <= b1 ->
    b1 <= (if b0 =? 0xF4 then 0x8F else 0xBF) ->
    0x80 <= b2 <= 0xBF -> 0x80 <= b3 <= 0xBF -> decodes l s ->
    decodes (b0 :: b1 :: b2 :: b3 :: l)
      (((b0 mod 8) * 262144 + (b1 mod 64) * 4096
        + (b2 mod 64) * 64 + b3 mod 64) :: s).

Lemma decode_N_decodes n : forall l s,
  (length l <= n)%nat -> Utf8.decode_N l = Some s -> decodes l s.
Proof.
  induction n as [|n IH]; intros l s Hl.
  - destruct l; [|simpl in Hl; lia]. intros [= <-]. constructor.
  - destruct l as [|b0 r0]; [intros [= <-]; constructor|].
    simpl in Hl. cbn [Utf8.decode_N].
    destruct (b0 <? 0x80) eqn:H0.
    { destruct (Utf8.decode_N r0) as [s0|] eqn:Hr; [|discriminate].
      intros [= <-]. b2p. constructor; [lia|]. apply IH; [lia|done]. }
    destruct (Utf8.in_range 0xC2 0xDF b0) eqn:H1.
    { destruct r0 as [|b1 r1]; [discriminate|].
      destruct (Utf8.cont b1) eqn:Hc1; [|discriminate].
      destruct (Utf8.decode_N r1) as [s0|] eqn:Hr; [|discriminate].
      intros [= <-]. b2p. constructor; [lia|lia|].
      apply IH; [simpl in Hl; lia|done]. }
    destruct (Utf8.in_range 0xE0 0xEF b0) eqn:H2.
    { destruct r0 as [|b1 [|b2 r2]]; try discriminate.
      match goal with
      | |- context [if ?b then _ else _] => destruct b eqn:Hc
      end; [|discriminate].
      destruct (Utf8.decode_N r2) as [s0|] eqn:Hr; [|discriminate].
      intros [= <-]. b2p. constructor; try lia.
      apply IH; [simpl in Hl; lia|done]. }
    destruct (Utf8.in_range 0xF0 0xF4 b0) eqn:H3; [|discriminate].
    destruct r0 as [|b1 [|b2 [|b3 r3]]]; try discriminate.
    match goal with
    | |- context [if ?b then _ else _] => destruct b eqn:Hc
    end; [|discriminate].
    destruct (Utf8.decode_N r3) as [s0|] eqn:Hr; [|discriminate].
    intros [= <-]. b2p. constructor; try lia.
    apply IH; [simpl in Hl; lia|done].
Qed.

Lemma decode_decodes b s :
  Utf8.decode b = Some s -> decodes (map Byte.to_N b) s.
Proof. apply (decode_N_decodes (length (map Byte.to_N b))). lia. Qed.

(** Encoding gives the bytes back. *)
Lemma decodes_encode l s :
  decodes l s ->
  Forall (fun c => Utf8.scalar c = true) s ->
  forall b, l = map Byte.to_N b -> Utf8.encode s = Some b.
Proof.
  induction 1 as [|b0 l s H0 _ IH|b0 b1 l s H0 H1 _ IH
                  |b0 b1 b2 l s H0 H1 H1' H2 _ IH
                  |b0 b1 b2 b3 l s H0 H1 H1' H2 H3 _ IH];
    intros Hs b Hb.
  - destruct b; [reflexivity|discriminate].
  - destruct b as [|x0 r]; [discriminate|]. injection Hb as -> ->.
    inversion Hs as [|? ? Hc Hs']; subst. simpl Utf8.encode. rewrite Hc.
    rewrite (IH Hs' r eq_refl), encode_char_1 by exact H0.
    simpl. now rewrite byte_of_to_N.
  - destruct b as [|x0 [|x1 r]]; try discriminate. injection Hb as -> -> ->.
    inversion Hs as [|? ? Hc Hs']; subst. simpl Utf8.encode. rewrite Hc.
    rewrite (IH Hs' r eq_refl), encode_char_2 by assumption.
    simpl. now rewrite !byte_of_to_N.
  - destruct b as [|x0 [|x1 [|x2 r]]]; try discriminate.
    injection Hb as -> -> -> ->.
    inversion Hs as [|? ? Hc Hs']; subst. simpl Utf8.encode. rewrite Hc.
    rewrite (IH Hs' r eq_refl), encode_char_3; try assumption.
    + simpl. now rewrite !byte_of_to_N.
    + destruct (Byte.to_N x0 =? 0xED); lia.
  - destruct b as [|x0 [|x1 [|x2 [|x3 r]]]]; try discriminate.
    injection Hb as -> -> -> -> ->.
    inversion Hs as [|? ? Hc Hs']; subst. simpl Utf8.encode. rewrite Hc.
    rewrite (IH Hs' r eq_refl), encode_char_4; try assumption.
    + simpl. now rewrite !byte_of_to_N.
    + destruct (Byte.to_N x0 =? 0xF4); lia.
Qed.

Lemma decodes_length l s :
  decodes l s ->
  (length s <= length l)%nat
  /\ (length s = length l <-> Forall (fun x => x < 0x80) l).
Proof.
  induction 1 as [|b0 l s H0 _ [IHl IHe]|b0 b1 l s H0 H1 _ [IHl IHe]
                  |b0 b1 b2 l s H0 H1 H1' H2 _ [IHl IHe]
                  |b0 b1 b2 b3 l s H0 H1 H1' H2 H3 _ [IHl IHe]];
    simpl; (split; [lia|]).
  - split; [constructor|reflexivity].
  - split.
    + intros [= He]. constructor; [exact H0|now apply IHe].
    + intros Hf. inversion Hf; subst. f_equal. now apply IHe.
  - split; [lia|]. intros Hf. inversion Hf; subst. lia.
  - split; [lia|]. intros Hf. inversion Hf; subst. lia.
  - split; [lia|]. intros Hf. inversion Hf; subst. lia.
Qed.

(** Decoding and encoding are inverse on the contents. *)
Lemma contents_round_trip contents contents_str :
  to_text contents = Return contents_str ->
  to_bytes contents_str = Return contents.
Proof.
  unfold to_text, to_bytes.
  destruct (Utf8.decode contents) as [s|] eqn:Hd; [|discriminate].
  intros [= <-].
  rewrite (decodes_encode _ _ (decode_decodes _ _ Hd)
             (decode_scalar _ _ Hd) contents eq_refl).
  reflexivity.
Qed.

(** X12. The length written in the frame counts characters: it is at most
    the number of bytes of the contents, and equal to it exactly when all
    the bytes are ASCII. *)
Theorem frame_length_counts_characters contents contents_str :
  to_text contents = Return contents_str ->
  (length contents_str <= length contents)%nat
  /\ (length contents_str = length contents
      <-> Forall (fun x => Byte.to_N x < 0x80) contents).
Proof.
  unfold to_text.
  destruct (Utf8.decode contents) as [s|] eqn:Hd; [|discriminate].
  intros [= <-].
  destruct (decodes_length _ _ (decode_decodes _ _ Hd)) as [Hl He].
  rewrite length_map in Hl, He. split; [exact Hl|].
  rewrite He. rewrite Forall_map. reflexivity.
Qed.

(** X11. The bytes that are hashed are a header, the encoding of
    ["blob "], of the number of characters and of the NUL character,
    followed by the contents themselves, byte for byte. *)
Theorem hashed_bytes_are_header_and_contents contents contents_str :
  to_text contents = Return contents_str ->
  exists header,
    to_bytes (lit "blob " ++ decimal (N.of_nat (length contents_str)) ++ [0])
    = Return header
    /\ to_bytes (lit "blob " ++ decimal (N.of_nat (length contents_str))
                   ++ [0] ++ contents_str)
       = Return (header ++ contents).
Proof.
  intros Ht. pose proof (contents_round_trip _ _ Ht) as Hr.
  unfold to_bytes in *.
  destruct (Utf8.encode contents_str) as [b|] eqn:Hb; [|discriminate].
  injection Hr as ->.
  destruct (encode_scalar
              (lit "blob " ++ decimal (N.of_nat (length contents_str)) ++ [0]))
    as [header Hh].
  { unfold decimal. repeat (apply Forall_app; split); auto using lit_scalar. }
  exists header. rewrite Hh. split; [reflexivity|].
  replace (lit "blob " ++ decimal (N.of_nat (length contents_str)) ++ [0]
             ++ contents_str)
    with ((lit "blob " ++ decimal (N.of_nat (length contents_str)) ++ [0])
            ++ contents_str) by now rewrite <- !app_assoc.
  now rewrite encode_app, Hh, Hb.
Qed.

Section BlobMore.

Context `{Externals}.

(** X13. [validate_blob_uri_contents] accepts exactly when the URI is
    parsed, the contents are UTF-8 text and the last segment of the path
    is the digest of the framed text. *)
Theorem blob_accepted_iff contents blob_uri :
  validate_blob_uri_contents contents blob_uri = Return tt
  <-> exists p contents_str,
        urlparse blob_uri = inr p
        /\ Utf8.decode contents = Some contents_str
        /\ framed_digest contents_str
           = Some (last_piece (split (chr "/") (path p))).
Proof.
  split.
  - intros Hv. destruct (urlparse blob_uri) as [b|p] eqn:Hp.
    { rewrite (blob_uri_unparsed _ _ _ Hp) in Hv. discriminate. }
    destruct (Utf8.decode contents) as [s|] eqn:Hd.
    2:{ unfold validate_blob_uri_contents, to_text in Hv.
        rewrite Hp, Hd in Hv. discriminate. }
    exists p, s. split; [reflexivity|]. split; [reflexivity|].
    destruct (framed_digest_defined _ _ Hd) as (data & _ & Hf).
    rewrite (blob_compare _ _ _ _ _ Hp Hd Hf) in Hv. cbv zeta in Hv.
    destruct (str_eqb (Sha1.hexdigest (Sha1.sha1 data))
                (last_piece (split (chr "/") (path p)))) eqn:Hq;
      [|discriminate].
    apply str_eqb_eq in Hq. now rewrite Hf, Hq.
  - intros (p & s & Hp & Hd & Hf).
    rewrite (blob_compare _ _ _ _ _ Hp Hd Hf). cbv zeta.
    assert (Hq : str_eqb (last_piece (split (chr "/") (path p)))
                   (last_piece (split (chr "/") (path p))) = true)
      by now apply str_eqb_eq.
    now rewrite Hq.
Qed.

(** X14. Every failure of [validate_blob_uri_contents] is one of three:
    the exception of [urlparse], the [UnicodeDecodeError] of contents that
    are not UTF-8 text, or the failure about the hash of the contents;
    encoding the framed text never fails. *)
Theorem blob_failure_cases contents blob_uri e :
  validate_blob_uri_contents contents blob_uri = Raise e ->
  (exists b, urlparse blob_uri = inl b /\ e = Builtin b)
  \/ (Utf8.decode contents = None /\ e = Builtin UnicodeDecodeError)
  \/ (exists p contents_str d,
        urlparse blob_uri = inr p
        /\ Utf8.decode contents = Some contents_str
        /\ framed_digest contents_str = Some d
        /\ d <> last_piece (split (chr "/") (path p))
        /\ e = EthPMValidationError
                 (Msg.hash_mismatch blob_uri
                    (last_piece (split (chr "/") (path p))))).
Proof.
  intros Hv. destruct (urlparse blob_uri) as [b|p] eqn:Hp.
  { rewrite (blob_uri_unparsed _ _ _ Hp) in Hv. injection Hv as <-.
    left. now exists b. }
  destruct (Utf8.decode contents) as [s|] eqn:Hd.
  2:{ unfold validate_blob_uri_contents, to_text in Hv.
      rewrite Hp, Hd in Hv. injection Hv as <-. right; left. now split. }
  right; right.
  destruct (framed_digest_defined _ _ Hd) as (data & _ & Hf).
  rewrite (blob_compare _ _ _ _ _ Hp Hd Hf) in Hv. cbv zeta in Hv.
  destruct (str_eqb (Sha1.hexdigest (Sha1.sha1 data))
              (last_piece (split (chr "/") (path p)))) eqn:Hq;
    [discriminate|].
  injection Hv as <-. apply str_eqb_neq in Hq.
  now exists p, s, (Sha1.hexdigest (Sha1.sha1 data)).
Qed.

End BlobMore.

(* ================================================================= *)
(** * Further properties of web3/middleware/validation.py *)

Lemma rpc_bind_Ok {A B} (a : A) (k : A -> rpc_result B) :
  rpc_bind (Ok a) k = k a.
Proof. reflexivity. Qed.

Lemma reraise_cases e : reraise e = TypeError \/ reraise e = ValueError.
Proof. destruct e; simpl; auto. Qed.

Section MiddlewareMore.

Context `{Runtime}.

(** X15. [validate_chain_id] returns exactly when the declared chain id,
    read by [int], equals the chain id of the node, and what it returns
    is the declared chain id as it was given. *)
Theorem validate_chain_id_returns_iff web3 chain_id v :
  validate_chain_id web3 chain_id = Return v
  <-> v = chain_id
      /\ exists n node,
           py_int chain_id = inr n
           /\ eth_chainId web3 = Return node
           /\ int_eq n node = true.
Proof.
  unfold validate_chain_id. split.
  - destruct (py_int chain_id) as [e|n]; run; [discriminate|].
    destruct (eth_chainId web3) as [node|e]; run; [|discriminate].
    destruct (int_eq n node) eqn:Hq; [|discriminate].
    intros [= <-]. split; [reflexivity|]. now exists n, node.
  - intros (-> & n & node & -> & -> & Hq). run. now rewrite Hq.
Qed.

(** The parameter validator on parameters that start with a mapping. *)
Lemma transaction_param_validator_mapping web3 tx rest :
  transaction_param_validator web3 (Mapping tx :: rest)
  = match tx !! lit "chainId" with
    | Some chain_id =>
        rpc_bind (format_item (chain_id_item_validator web3) chain_id)
          (fun v => Ok (Mapping (<[lit "chainId" := v]> tx) :: rest))
    | None => Ok (Mapping tx :: rest)
    end.
Proof.
  unfold transaction_param_validator, apply_formatter_at_index. simpl.
  destruct (tx !! lit "chainId") as [chain_id|]; [|reflexivity].
  destruct (format_item (chain_id_item_validator web3) chain_id);
    reflexivity.
Qed.

Lemma normalize_first tx rest :
  apply_formatter_at_index normalize_param 0 (Mapping tx :: rest)
  = Ok (Mapping (transaction_normalizer tx) :: rest).
Proof. reflexivity. Qed.

(** [chain_id_validator] on parameters that start with a mapping: the
    [chainId] item is validated, then removed. *)
Lemma chain_id_validator_mapping web3 tx rest :
  chain_id_validator web3 (Mapping tx :: rest)
  = match tx !! lit "chainId" with
    | Some chain_id =>
        rpc_bind (format_item (chain_id_item_validator web3) chain_id)
          (fun _ => Ok (Mapping (delete (lit "chainId") tx) :: rest))
    | None => Ok (Mapping tx :: rest)
    end.
Proof.
  unfold chain_id_validator. rewrite transaction_param_validator_mapping.
  destruct (tx !! lit "chainId") as [chain_id|] eqn:Hk.
  - destruct (format_item (chain_id_item_validator web3) chain_id);
      [|reflexivity].
    rewrite !rpc_bind_Ok, normalize_first. unfold transaction_normalizer.
    now rewrite delete_insert_eq.
  - rewrite rpc_bind_Ok, normalize_first. unfold transaction_normalizer.
    now rewrite delete_id.
Qed.

(** The validator of the item, by the answer of the node. *)
Lemma item_validator_node web3 chain_id node :
  eth_chainId web3 = Return node ->
  chain_id_item_validator web3 chain_id
  = if is_not_null (Plain node) then lift (validate_chain_id web3 chain_id)
    else Ok chain_id.
Proof.
  intros Hn. unfold chain_id_item_validator, apply_formatter_if.
  now rewrite Hn.
Qed.

(** X16. Whenever [chain_id_validator] returns, the parameters started
    with a mapping, and the result is the same parameters with the key
    [chainId] removed from that mapping: every other key and every other
    parameter is as it was. *)
Theorem chain_id_validator_postcondition web3 params params' :
  chain_id_validator web3 params = Ok params' ->
  exists tx rest,
    params = Mapping tx :: rest
    /\ params' = Mapping (delete (lit "chainId") tx) :: rest
    /\ forall key, key <> lit "chainId" ->
                   delete (lit "chainId") tx !! key = tx !! key.
Proof.
  intros Hv. destruct params as [|[tx|v] rest]; try discriminate.
  exists tx, rest. split; [reflexivity|].
  split; [|intros key Hk; now apply lookup_delete_ne].
  rewrite chain_id_validator_mapping in Hv.
  destruct (tx !! lit "chainId") as [chain_id|] eqn:Hk.
  - destruct (format_item (chain_id_item_validator web3) chain_id);
      [|discriminate].
    now injection Hv as <-.
  - injection Hv as <-. now rewrite delete_id.
Qed.

(** X17. A transaction without the key [chainId] passes as it is, and the
    node is not asked: this holds whatever [web3.eth.chainId] does. *)
Theorem no_chain_id_passes_untouched web3 tx rest :
  tx !! lit "chainId" = None ->
  chain_id_validator web3 (Mapping tx :: rest) = Ok (Mapping tx :: rest).
Proof. intros Hk. now rewrite chain_id_validator_mapping, Hk. Qed.

(** X18. A declared chain id that equals the chain id the node tells is
    accepted, and removed from the transaction. *)
Theorem matching_chain_id_accepted web3 tx rest chain_id n node :
  tx !! lit "chainId" = Some chain_id ->
  eth_chainId web3 = Return node ->
  py_int chain_id = inr n ->
  int_eq n node = true ->
  chain_id_validator web3 (Mapping tx :: rest)
  = Ok (Mapping (delete (lit "chainId") tx) :: rest).
Proof.
  intros Hk Hn Hi Hq. rewrite chain_id_validator_mapping, Hk.
  unfold format_item. rewrite (item_validator_node _ _ _ Hn).
  assert (Hv : validate_chain_id web3 chain_id = Return chain_id).
  { unfold validate_chain_id. rewrite Hi, Hn. run. now rewrite Hq. }
  rewrite Hv. destruct node; reflexivity.
Qed.

(** X19. When the node does not tell its chain id, the declared chain id
    is not validated, whatever it is, and is removed from the
    transaction. *)
Theorem unknown_node_chain_id_bypasses web3 tx rest chain_id :
  tx !! lit "chainId" = Some chain_id ->
  eth_chainId web3 = Return PyNone ->
  chain_id_validator web3 (Mapping tx :: rest)
  = Ok (Mapping (delete (lit "chainId") tx) :: rest).
Proof.
  intros Hk Hn. rewrite chain_id_validator_mapping, Hk.
  unfold format_item. now rewrite (item_validator_node _ _ _ Hn).
Qed.

(** X20. A declared chain id that differs from the chain id the node
    tells is rejected with [ValidationError]; the message shows both. *)
Theorem chain_id_mismatch_rejected web3 tx rest chain_id n node :
  tx !! lit "chainId" = Some chain_id ->
  eth_chainId web3 = Return node ->
  node <> PyNone ->
  py_int chain_id = inr n ->
  int_eq n node = false ->
  chain_id_validator web3 (Mapping tx :: rest)
  = Err (Py (ValidationError (chain_id_mismatch chain_id node)))
  /\ contains (chain_id_mismatch chain_id node) (py_repr chain_id)
  /\ contains (chain_id_mismatch chain_id node) (py_repr node).
Proof.
  intros Hk Hn Hnn Hi Hq. split; [|split].
  - rewrite chain_id_validator_mapping, Hk.
    unfold format_item. rewrite (item_validator_node _ _ _ Hn).
    unfold validate_chain_id. rewrite Hi, Hn. run. rewrite Hq. run.
    destruct node; try reflexivity. contradiction.
  - unfold chain_id_mismatch. auto with contains.
  - unfold chain_id_mismatch. do 3 apply contains_app_r. apply contains_refl.
Qed.

(** X21. A declared chain id that [int] does not read, with a node that
    tells its chain id, is a [TypeError] or a [ValueError], raised again
    by the formatter of the mapping: not a [ValidationError]. *)
Theorem unreadable_chain_id_reraised web3 tx rest chain_id node e :
  tx !! lit "chainId" = Some chain_id ->
  eth_chainId web3 = Return node ->
  node <> PyNone ->
  py_int chain_id = inl e ->
  chain_id_validator web3 (Mapping tx :: rest)
  = Err (Py (Builtin (reraise e)))
  /\ (reraise e = TypeError \/ reraise e = ValueError).
Proof.
  intros Hk Hn Hnn Hi. split; [|apply reraise_cases].
  rewrite chain_id_validator_mapping, Hk.
  unfold format_item. rewrite (item_validator_node _ _ _ Hn).
  unfold validate_chain_id. rewrite Hi. run.
  destruct node; try reflexivity. contradiction.
Qed.

(** X22. Parameters that do not start with a mapping are not formatted:
    without a first parameter the failure is [IndexError], with a first
    parameter that is not a mapping it is [AttributeError]. *)
Theorem chain_id_validator_bad_params web3 :
  chain_id_validator web3 [] = Err IndexError
  /\ forall v rest, chain_id_validator web3 (Plain v :: rest)
                    = Err AttributeError.
Proof. split; [reflexivity|]. intros v rest. reflexivity. Qed.

(** The formatter of [extraData] on a mapping. *)
Lemma block_validator_mapping d :
  block_validator (Mapping d)
  = match d !! lit "extraData" with
    | Some val =>
        rpc_bind (format_item (fun v => lift (check_extradata_length v)) val)
          (fun v => Ok (Mapping (<[lit "extraData" := v]> d)))
    | None => Ok (Mapping d)
    end.
Proof. reflexivity. Qed.

Lemma check_extradata_length_raises val msg :
  check_extradata_length val = Raise (ValidationError msg)
  <-> is_str_int_bytes val = true
      /\ exists b, HexBytes val = inr b
                   /\ (MAX_EXTRADATA_LENGTH < length b)%nat
                   /\ msg = extradata_too_long b.
Proof.
  unfold check_extradata_length.
  destruct (is_str_int_bytes val); simpl.
  2:{ split; [discriminate|]. intros [Hf _]. discriminate. }
  destruct (HexBytes val) as [e|b]; run.
  { split; [discriminate|]. intros [_ (b & Hb & _)]. discriminate. }
  destruct (Nat.ltb_spec MAX_EXTRADATA_LENGTH (length b)) as [Hl|Hl].
  - split.
    + intros [= <-]. split; [reflexivity|]. now exists b.
    + intros [_ (b' & [= <-] & _ & ->)]. reflexivity.
  - split; [discriminate|]. intros [_ (b' & [= <-] & Hl' & _)]. lia.
Qed.

Lemma check_extradata_length_returns val v :
  check_extradata_length val = Return v -> v = val.
Proof.
  unfold check_extradata_length.
  destruct (is_str_int_bytes val); simpl; [|now intros [= <-]].
  destruct (HexBytes val) as [e|b]; run; [discriminate|].
  destruct (MAX_EXTRADATA_LENGTH <? length b)%nat; [discriminate|].
  now intros [= <-].
Qed.

(** X23. [block_validator] is a validating identity: it returns exactly
    for [None], for a mapping without [extraData] and for a mapping whose
    [extraData] passes [check_extradata_length], and what it returns is
    the block as it was given. *)
Theorem block_validator_returns_iff block block' :
  block_validator block = Ok block'
  <-> block' = block
      /\ (block = Plain PyNone
          \/ exists d,
               block = Mapping d
               /\ (d !! lit "extraData" = None
                   \/ exists val,
                        d !! lit "extraData" = Some val
                        /\ check_extradata_length val = Return val)).
Proof.
  split.
  - destruct block as [d|v].
    + rewrite block_validator_mapping.
      destruct (d !! lit "extraData") as [val|] eqn:Hk.
      * unfold format_item.
        destruct (check_extradata_length val) as [v|e] eqn:Hc.
        -- apply check_extradata_length_returns in Hc as Hv. subst v.
           simpl. rewrite (insert_id _ _ _ Hk). intros [= <-].
           split; [reflexivity|]. right. exists d. split; [reflexivity|].
           right. now exists val.
        -- destruct e as [m|m|b]; discriminate.
      * intros [= <-]. split; [reflexivity|]. right. exists d. auto.
    + destruct v; try discriminate. intros [= <-]. auto.
  - intros [-> [->|(d & -> & [Hk|(val & Hk & Hc)])]].
    + reflexivity.
    + now rewrite block_validator_mapping, Hk.
    + rewrite block_validator_mapping, Hk. unfold format_item. rewrite Hc.
      simpl. now rewrite (insert_id _ _ _ Hk).
Qed.

(** X24. [block_validator] raises [ValidationError] exactly for a mapping
    whose [extraData] is a [str], [int] or [bytes] of more than 32
    bytes. *)
Theorem block_validator_rejects_long_extradata block :
  (exists msg, block_validator block = Err (Py (ValidationError msg)))
  <-> exists d val b,
        block = Mapping d
        /\ d !! lit "extraData" = Some val
        /\ is_str_int_bytes val = true
        /\ HexBytes val = inr b
        /\ (MAX_EXTRADATA_LENGTH < length b)%nat.
Proof.
  split.
  - intros [msg Hv]. destruct block as [d|v].
    + rewrite block_validator_mapping in Hv.
      destruct (d !! lit "extraData") as [val|] eqn:Hk; [|discriminate].
      unfold format_item in Hv.
      destruct (check_extradata_length val) as [v|e] eqn:Hc;
        [discriminate|].
      destruct e as [m|m|b]; try discriminate.
      apply check_extradata_length_raises in Hc as (Ht & b & Hb & Hl & _).
      now exists d, val, b.
    + destruct v; discriminate.
  - intros (d & val & b & -> & Hk & Ht & Hb & Hl).
    assert (Hc : check_extradata_length val
                 = Raise (ValidationError (extradata_too_long b))).
    { apply check_extradata_length_raises. split; [exact Ht|]. now exists b. }
    exists (extradata_too_long b).
    rewrite block_validator_mapping, Hk. unfold format_item.
    now rewrite Hc.
Qed.

End MiddlewareMore.

(* ================================================================= *)
(** * Evaluation of the further properties on concrete inputs *)

Section ConcreteMore.

#[local] Existing Instance Model.model.
#[local] Existing Instance ModelRuntime.runtime.
Import Sample SampleMore.

Lemma with_chain_id_lookup : with_chain_id !! lit "chainId" = Some (PyInt 1).
Proof. unfold with_chain_id. apply lookup_insert_eq. Qed.

Lemma value_only_lookup : value_only !! lit "chainId" = None.
Proof.
  unfold value_only. rewrite lookup_insert_ne by (vm_compute; discriminate).
  apply lookup_empty.
Qed.

Lemma text_chain_id_lookup :
  text_chain_id !! lit "chainId" = Some (PyStr (lit "mainnet")).
Proof. unfold text_chain_id. apply lookup_insert_eq. Qed.

Lemma block_of_lookup extra_data :
  block_of extra_data !! lit "extraData" = Some extra_data.
Proof. unfold block_of. apply lookup_insert_eq. Qed.

(** C5 on a URI whose chain id is not a number, whose path is [/] and
    which has a query. *)
Lemma unparsable_chain_id_surfaces_untyped_witness :
  strip (chr "/") (path text_chain_parsed) = []
  /\ query text_chain_parsed <> []
  /\ validate_registry_uri text_chain_uri = Raise (Builtin ValueError)
  /\ ~ is_validation_error (Builtin ValueError).
Proof.
  split; [vm_compute; reflexivity|]. split; [vm_compute; discriminate|].
  destruct (unparsable_chain_id_surfaces_untyped
              text_chain_uri text_chain_parsed (lit "foo.eth") (lit "abc")
              ValueError) as (Hv & _ & Hne & _).
  - vm_compute. reflexivity.
  - vm_compute. reflexivity.
  - vm_compute. reflexivity.
  - vm_compute. reflexivity.
  - vm_compute. reflexivity.
  - split; [exact Hv|exact Hne].
Defined.

(** X1 on the checksummed address with chain id 1. *)
Lemma authority_accepted_iff_witness :
  validate_registry_uri_authority (address ++ lit ":1") = Return tt.
Proof.
  apply (proj2 (authority_accepted_iff (address ++ lit ":1"))).
  exists address, (lit "1"), 1%Z. repeat split; vm_compute; reflexivity.
Defined.

(** X2 on an identity without a dot, with a chain id that is not a
    number. *)
Lemma bad_identity_reported_first_witness :
  validate_registry_uri_authority (lit "notadomain:abc")
  = Raise (EthPMValidationError (Msg.invalid_identity (lit "notadomain"))).
Proof.
  apply (bad_identity_reported_first (lit "notadomain:abc")
           (lit "notadomain") (lit "abc")); vm_compute; reflexivity.
Defined.

(** X3 on chain id 999. *)
Lemma unsupported_chain_id_rejected_witness :
  validate_registry_uri_authority (address ++ lit ":999")
  = Raise (EthPMValidationError (Msg.unsupported_chain_id (lit "999"))).
Proof.
  apply (unsupported_chain_id_rejected (address ++ lit ":999") address
           (lit "999") 999%Z); vm_compute; reflexivity.
Defined.

(** X4 on a URI of scheme [http]. *)
Lemma wrong_scheme_rejected_witness :
  validate_registry_uri http_uri
  = Raise (EthPMValidationError (Msg.invalid_scheme (lit "http"))).
Proof.
  apply (wrong_scheme_rejected http_uri http_parsed).
  - vm_compute. reflexivity.
  - vm_compute. discriminate.
Defined.

(** X5 on a URI with a package name and a version. *)
Lemma registry_uri_accepted_iff_witness :
  validate_registry_uri accepted_uri = Return tt.
Proof.
  apply (proj2 (registry_uri_accepted_iff accepted_uri)).
  exists accepted_parsed. split; [vm_compute; reflexivity|].
  split; [vm_compute; reflexivity|]. split; [vm_compute; reflexivity|].
  split; [intros _; vm_compute; reflexivity|].
  split; [vm_compute; discriminate|].
  intros _. exists [lit "1.0.0"].
  change (parse_qs (query accepted_parsed))
    with (Model.parse_qs (lit "version=1.0.0")).
  unfold Model.parse_qs.
  change (Model.parse_qsl (lit "version=1.0.0"))
    with [(lit "version", lit "1.0.0")].
  simpl fold_left. rewrite lookup_empty. apply lookup_insert_eq.
Defined.

(** X6 on a package name that starts with a digit. *)
Lemma package_name_failure_surfaces_witness :
  validate_registry_uri bad_name_uri
  = Raise (EthPMValidationError (lit "1bad is not a valid package name.")).
Proof.
  apply (package_name_failure_surfaces bad_name_uri bad_name_parsed).
  - vm_compute. reflexivity.
  - vm_compute. reflexivity.
  - vm_compute. reflexivity.
  - vm_compute. discriminate.
  - vm_compute. reflexivity.
Defined.

(** X7 on a query without a version. *)
Lemma missing_version_key_rejected_witness :
  validate_registry_uri no_version_uri
  = Raise (EthPMValidationError (Msg.missing_version_key (lit "foo=1"))).
Proof.
  apply (missing_version_key_rejected no_version_uri no_version_parsed).
  - vm_compute. reflexivity.
  - vm_compute. reflexivity.
  - vm_compute. reflexivity.
  - vm_compute. discriminate.
  - vm_compute. reflexivity.
  - vm_compute. discriminate.
  - change (parse_qs (query no_version_parsed))
      with (Model.parse_qs (lit "foo=1")).
    unfold Model.parse_qs.
    change (Model.parse_qsl (lit "foo=1")) with [(lit "foo", lit "1")].
    simpl fold_left. rewrite lookup_empty.
    rewrite lookup_insert_ne by (vm_compute; discriminate).
    apply lookup_empty.
Defined.

(** X8 on the URI with two colons in the authority: the failure is the
    one of the authority validator. *)
Lemma registry_uri_failure_cases_witness :
  (exists b, urlparse two_colons_uri = inl b
             /\ EthPMValidationError
                  (Msg.malformed_authority (lit "foo.eth:1:2")) = Builtin b)
  \/ exists p,
       urlparse two_colons_uri = inr p
       /\ (has_kind InvalidURIScheme
             (EthPMValidationError
                (Msg.malformed_authority (lit "foo.eth:1:2")))
           \/ validate_registry_uri_authority (netloc p)
              = Raise (EthPMValidationError
                         (Msg.malformed_authority (lit "foo.eth:1:2")))
           \/ validate_package_name (strip (chr "/") (path p))
              = Raise (EthPMValidationError
                         (Msg.malformed_authority (lit "foo.eth:1:2")))
           \/ has_kind MissingPackageName
                (EthPMValidationError
                   (Msg.malformed_authority (lit "foo.eth:1:2")))
           \/ has_kind MissingVersionKey
                (EthPMValidationError
                   (Msg.malformed_authority (lit "foo.eth:1:2")))).
Proof.
  apply (registry_uri_failure_cases two_colons_uri).
  vm_compute. reflexivity.
Defined.

(** X9 on three candidates, one of them on the chain [bb]. *)
Lemma returned_uri_is_the_only_match_witness :
  In b2 [a1; b2; a3]
  /\ check_if_chain_matches_chain_uri (lit "bb") b2 = true
  /\ List.filter (check_if_chain_matches_chain_uri (lit "bb")) [a1; b2; a3]
     = [b2].
Proof.
  destruct (returned_uri_is_the_only_match (H:=Model.model)
              [a1; b2; a3] (lit "bb") b2) as (Hin & Hm & Hf & _).
  - vm_compute. reflexivity.
  - split; [exact Hin|]. split; [exact Hm|exact Hf].
Defined.

(** X10 on the three candidates in another order. *)
Lemma selection_ignores_order_witness :
  validate_single_matching_uri [b2; a3; a1] (lit "bb") = Return b2.
Proof.
  assert (Hp : Permutation [a1; b2; a3] [b2; a3; a1]).
  { apply Permutation_cons_append with (l := [b2; a3]). }
  apply (proj1 (selection_ignores_order (H:=Model.model) _ _ (lit "bb") Hp)).
  vm_compute. reflexivity.
Defined.

(** X11 on the contents [hello]. *)
Lemma hashed_bytes_are_header_and_contents_witness :
  exists header,
    to_bytes (lit "blob " ++ decimal 5 ++ [0]) = Return header
    /\ to_bytes (lit "blob " ++ decimal 5 ++ [0] ++ lit "hello")
       = Return (header ++ blit "hello").
Proof.
  apply (hashed_bytes_are_header_and_contents (blit "hello") (lit "hello")).
  vm_compute. reflexivity.
Defined.

(** X12 on the two bytes of one accented letter: one character. *)
Lemma frame_length_counts_characters_witness :
  to_text eacute = Return [233]
  /\ (length [233] <= length eacute)%nat
  /\ (length [233] = length eacute
      <-> Forall (fun x => Byte.to_N x < 0x80) eacute).
Proof.
  assert (Ht : to_text eacute = Return [233]) by (vm_compute; reflexivity).
  split; [exact Ht|].
  exact (frame_length_counts_characters eacute [233] Ht).
Defined.

(** X13 on the contents [hello] and the URI that ends with their
    digest. *)
Lemma blob_accepted_iff_witness :
  validate_blob_uri_contents (blit "hello") hello_uri = Return tt.
Proof.
  apply (proj2 (blob_accepted_iff (blit "hello") hello_uri)).
  exists (blob_parsed hello_digest), (lit "hello").
  repeat split; vm_compute; reflexivity.
Defined.

(** X14 on the contents [hellp] and the same URI. *)
Lemma blob_failure_cases_witness :
  exists d,
    framed_digest (lit "hellp") = Some d
    /\ d <> hello_digest
    /\ validate_blob_uri_contents (blit "hellp") hello_uri
       = Raise (EthPMValidationError
                  (Msg.hash_mismatch hello_uri hello_digest)).
Proof.
  assert (Hv : validate_blob_uri_contents (blit "hellp") hello_uri
               = Raise (EthPMValidationError
                          (Msg.hash_mismatch hello_uri hello_digest)))
    by (vm_compute; reflexivity).
  destruct (blob_failure_cases _ _ _ Hv)
    as [(b & _ & Hb)|[(_ & Hb)|(p & s & d & Hp & Hd & Hf & Hne & _)]];
    [discriminate Hb|discriminate Hb|].
  assert (Hp' : urlparse hello_uri = inr (blob_parsed hello_digest))
    by (vm_compute; reflexivity).
  assert (Hd' : Utf8.decode (blit "hellp") = Some (lit "hellp"))
    by (vm_compute; reflexivity).
  rewrite Hp' in Hp. injection Hp as <-.
  rewrite Hd' in Hd. injection Hd as <-.
  exists d. split; [exact Hf|]. split; [|exact Hv].
  intros ->. apply Hne. vm_compute. reflexivity.
Defined.

(** X15 on the chain id 1, declared as text, and a node of chain 1. *)
Lemma validate_chain_id_returns_iff_witness :
  validate_chain_id (lit "1") (PyStr (lit "1")) = Return (PyStr (lit "1")).
Proof.
  apply (proj2 (@validate_chain_id_returns_iff _ ModelRuntime.runtime
                  (lit "1") (PyStr (lit "1")) (PyStr (lit "1")))).
  split; [reflexivity|]. exists 1%Z, (PyInt 1).
  repeat split; vm_compute; reflexivity.
Defined.

(** X16 on a transaction with chain id 1, a second parameter and a node
    of chain 1. *)
Lemma chain_id_validator_postcondition_witness :
  exists tx rest,
    [Mapping with_chain_id; latest] = Mapping tx :: rest
    /\ [Mapping (delete (lit "chainId") with_chain_id); latest]
       = Mapping (delete (lit "chainId") tx) :: rest
    /\ forall key, key <> lit "chainId" ->
                   delete (lit "chainId") tx !! key = tx !! key.
Proof.
  apply (@chain_id_validator_postcondition _ ModelRuntime.runtime
           (lit "1")).
  rewrite chain_id_validator_mapping, with_chain_id_lookup.
  vm_compute format_item. reflexivity.
Defined.

(** X17 on a transaction without chain id. *)
Lemma no_chain_id_passes_untouched_witness :
  chain_id_validator (lit "1") [Mapping value_only; latest]
  = Ok [Mapping value_only; latest].
Proof.
  apply (@no_chain_id_passes_untouched _ ModelRuntime.runtime).
  exact value_only_lookup.
Defined.

(** X18 on chain id 1 and a node of chain 1. *)
Lemma matching_chain_id_accepted_witness :
  chain_id_validator (lit "1") [Mapping with_chain_id; latest]
  = Ok [Mapping (delete (lit "chainId") with_chain_id); latest].
Proof.
  apply (@matching_chain_id_accepted _ ModelRuntime.runtime
           (lit "1") with_chain_id [latest] (PyInt 1) 1%Z (PyInt 1)).
  - exact with_chain_id_lookup.
  - vm_compute. reflexivity.
  - vm_compute. reflexivity.
  - vm_compute. reflexivity.
Defined.

(** X19 on a chain id that is not a number and a node that does not tell
    its chain id. *)
Lemma unknown_node_chain_id_bypasses_witness :
  chain_id_validator (lit "unknown") [Mapping text_chain_id]
  = Ok [Mapping (delete (lit "chainId") text_chain_id)].
Proof.
  apply (@unknown_node_chain_id_bypasses _ ModelRuntime.runtime
           (lit "unknown") text_chain_id [] (PyStr (lit "mainnet"))).
  - exact text_chain_id_lookup.
  - vm_compute. reflexivity.
Defined.

(** X20 on chain id 1 and a node of chain 5. *)
Lemma chain_id_mismatch_rejected_witness :
  chain_id_validator (lit "5") [Mapping with_chain_id; latest]
  = Err (Py (ValidationError (chain_id_mismatch (PyInt 1) (PyInt 5))))
  /\ chain_id_mismatch (PyInt 1) (PyInt 5)
     = lit "The transaction declared chain ID 1, but the connected node is on 5".
Proof.
  split; [|vm_compute; reflexivity].
  apply (@chain_id_mismatch_rejected _ ModelRuntime.runtime
           (lit "5") with_chain_id [latest] (PyInt 1) 1%Z (PyInt 5)).
  - exact with_chain_id_lookup.
  - vm_compute. reflexivity.
  - discriminate.
  - vm_compute. reflexivity.
  - vm_compute. reflexivity.
Defined.

(** X21 on a chain id that is not a number and a node of chain 1. *)
Lemma unreadable_chain_id_reraised_witness :
  chain_id_validator (lit "1") [Mapping text_chain_id]
  = Err (Py (Builtin ValueError)).
Proof.
  apply (@unreadable_chain_id_reraised _ ModelRuntime.runtime
           (lit "1") text_chain_id [] (PyStr (lit "mainnet")) (PyInt 1)
           ValueError).
  - exact text_chain_id_lookup.
  - vm_compute. reflexivity.
  - discriminate.
  - vm_compute. reflexivity.
Defined.

(** X23 on a block with extra data of 32 bytes, and on no block. *)
Lemma block_validator_returns_iff_witness :
  block_validator (Mapping (block_of short_extradata))
  = Ok (Mapping (block_of short_extradata))
  /\ block_validator (Plain PyNone) = Ok (Plain PyNone).
Proof.
  split.
  - apply (proj2 (@block_validator_returns_iff Model.model
                    _ _)).
    split; [reflexivity|]. right. exists (block_of short_extradata).
    split; [reflexivity|]. right. exists short_extradata.
    split; [apply block_of_lookup|vm_compute; reflexivity].
  - apply (proj2 (@block_validator_returns_iff Model.model
                    _ _)).
    split; [reflexivity|]. now left.
Defined.

(** X24 on a block with extra data of 33 bytes. *)
Lemma block_validator_rejects_long_extradata_witness :
  exists msg,
    block_validator (Mapping (block_of long_extradata))
    = Err (Py (ValidationError msg)).
Proof.
  apply (proj2 (@block_validator_rejects_long_extradata Model.model _)).
  exists (block_of long_extradata), long_extradata.
  eexists. split; [reflexivity|]. split; [apply block_of_lookup|].
  split; [reflexivity|]. split; [vm_compute; reflexivity|].
  vm_compute. lia.
Defined.

End ConcreteMore.
